(** * Verification of [src/train.py]

    The script trains a one-vs-rest logistic regression on binarized tag
    sets and writes four evaluation scores to [output/stats.txt].

    Layout of the development:
    - [Python]: the pieces of the Python runtime the script relies on
      (exceptions, a result type, a file system with [open(..., "w")]).
    - [Sklearn]: the scikit-learn estimators and metrics the script imports
      (lines 4-12).  Their code is not part of the repository; each
      definition states which library function it stands for and which
      behaviour of it is recorded.
    - [Reporter], [Pipeline]: the functions of [train.py] themselves.
    - worked inputs, and the one-vs-one ROC AUC the specification
      describes, for comparison.
    - the theorems, grouped by component: the report, label binarization,
      accuracy, training, the ROC AUC line. *)

From Stdlib Require Import Ascii QArith Qcanon.
From stdpp Require Import gmap strings list fin_maps sorting pretty.

Local Open Scope string_scope.
Local Open Scope list_scope.

(** ** Python runtime *)

Module Python.

(** The exceptions that can leave the functions modelled here. *)
Inductive exn :=
  | ValueError (msg : string)
  | FileNotFoundError (path : string)
  | IsADirectoryError (path : string)
  | NotFittedError (what : string).

(** Outcome of a call: a value, or an exception that propagates. *)
Inductive result (A : Type) :=
  | Ok (a : A)
  | Raise (e : exn).
Global Arguments Ok {A} a.
Global Arguments Raise {A} e.

Global Instance result_ret : MRet result := λ A a, Ok a.
Global Instance result_bind : MBind result := λ A B f r,
  match r with
  | Ok a => f a
  | Raise e => Raise e
  end.
Global Instance result_fmap : FMap result := λ A B f r,
  match r with
  | Ok a => Ok (f a)
  | Raise e => Raise e
  end.

Definition is_ok {A} (r : result A) : bool :=
  match r with Ok _ => true | Raise _ => false end.

(** The file system: the directories that exist and the text files with
    their contents.  Paths are compared as written: a path stands for the
    file it names when it is in canonical form (relative to the working
    directory, components separated by one ['/'], none of them empty, ["."]
    or [".."]).  Other spellings of a path, which the operating system
    would resolve to a canonical one, are outside the model; the paths
    that [train.py] builds from plain file names are canonical. *)
Record FS := mkFS {
  dirs : gset string;
  files : gmap string string;
}.

(** A computation that reads and writes the file system and may raise;
    the file system it leaves behind is observable in both cases. *)
Definition IO (A : Type) : Type := FS → result A * FS.

Global Instance IO_ret : MRet IO := λ A a fs, (Ok a, fs).
Global Instance IO_bind : MBind IO := λ A B f m fs,
  match m fs with
  | (Ok a, fs') => f a fs'
  | (Raise e, fs') => (Raise e, fs')
  end.

(** A pure call that may raise, run inside [IO]. *)
Definition lift {A} (r : result A) : IO A := λ fs, (r, fs).

(** [dirname p]: the part of [p] before its last ['/'] (empty if none). *)
Fixpoint has_slash (p : string) : bool :=
  match p with
  | EmptyString => false
  | String c p' => if Ascii.eqb c "/" then true else has_slash p'
  end.
Fixpoint dirname (p : string) : string :=
  match p with
  | EmptyString => ""
  | String c p' => if has_slash p' then String c (dirname p') else ""
  end.

(** [open(path, "w")]: the parent directory must exist and the path must
    not name a directory; the file is created, or truncated if present. *)
Definition open_w (path : string) : IO string := λ fs,
  if bool_decide (path ∈ dirs fs ∨ path = dirname path +:+ "/")
  then (Raise (IsADirectoryError path), fs)
  else if bool_decide (dirname path ∈ dirs fs)
  then (Ok path, mkFS (dirs fs) (<[path := ""]> (files fs)))
  else (Raise (FileNotFoundError path), fs).

(** [f.write(s)] on a file opened by [open_w]: [s] is appended.  Python
    buffers the text and flushes it when the [with] block is left, on
    normal exit and on an exception alike, so the contents after the
    block are those written here. *)
Definition write (f : string) (s : string) : IO unit := λ fs,
  (Ok tt, mkFS (dirs fs) (<[f := default "" (files fs !! f) +:+ s]> (files fs))).

(** [with open(path, "w") as f: body]. *)
Definition with_open_w {A} (path : string) (body : string → IO A) : IO A :=
  open_w path ≫= body.

End Python.
Import Python.

(** ** scikit-learn: arrays and metrics *)

(** [train.py] imports its estimators and metrics from scikit-learn (lines
    4-12); the library's code is not part of the repository.  The module
    below writes down what these functions do on the values [train.py]
    passes to them, two-dimensional label indicator matrices and score
    matrices, following the library's reference documentation.  Where the
    library's behaviour on such values differs from what the
    specification expects of the component, the library's behaviour is
    the one recorded, since it is what runs. *)

Module Sklearn.

(** A dense 2-D array, row by row.  Indicator matrices hold 0 and 1,
    score matrices hold decision margins.  Floating point numbers are
    represented by exact rationals in canonical form. *)
Abbreviation matrix := (list (list Qc)).

Definition n_columns (m : matrix) : nat :=
  match m with [] => 0 | r :: _ => length r end.
Definition column (j : nat) (m : matrix) : list Qc :=
  (λ r, default 0%Qc (r !! j)) <$> m.
Definition columns (m : matrix) : list (list Qc) :=
  (λ j, column j m) <$> seq 0 (n_columns m).

Definition cell (m : matrix) (r j : nat) : option Qc :=
  m !! r ≫= λ row, row !! j.

Definition of_nat (n : nat) : Qc := Q2Qc (inject_Z (Z.of_nat n)).
Definition sum (l : list Qc) : Qc := foldr Qcplus 0%Qc l.
Definition mean (l : list Qc) : Qc := (sum l / of_nat (length l))%Qc.
Definition count {A} (P : A → bool) (l : list A) : nat :=
  length (List.filter P l).

(** The [average=] and [multi_class=] keyword arguments. *)
Inductive average := macro | weighted.
Inductive multi_class := raise | ovr | ovo.

(** Every metric first checks that both arrays have the same shape
    ([check_consistent_length] and the array arithmetic that follows);
    a mismatch raises. *)
Definition check_consistent_length (a b : matrix) : result unit :=
  if bool_decide (length <$> a = length <$> b) then Ok tt
  else Raise (ValueError
    "Found input variables with inconsistent numbers of samples").

(** The mean over no sample at all is not a number in floating point;
    the rationals have no such value, so it is reported as an error. *)
Definition check_non_empty (a : matrix) : result unit :=
  if bool_decide (a = []) then Raise (ValueError "Found array with 0 sample(s)")
  else Ok tt.

(** Modelled from the spec: [sklearn.metrics.accuracy_score], imported on
    line 6, is not under src/.  Section 4.4 (1) describes it as the
    "fraction of examples where the entire predicted label row equals the
    entire true label row exactly".  This is the library's subset accuracy
    for label indicator input: per row it counts the cells where the two
    arrays differ, scores the row 1 when there is none, and returns the
    mean of the row scores. *)
Definition accuracy_score (y_true y_pred : matrix) : result Qc :=
  check_consistent_length y_true y_pred;;
  check_non_empty y_true;;
  Ok (of_nat (count (λ p, bool_decide (p.1 = p.2)) (zip y_true y_pred))
      / of_nat (length y_true))%Qc.

(** A cell of an indicator column is positive when it holds 1. *)
Definition is_pos (y : Qc) : bool := bool_decide (y = 1%Qc).

(** Number of positive cells of a column: the label's support. *)
Definition support (ys : list Qc) : nat := count is_pos ys.

(** [average=]: unweighted mean over the labels, or mean weighted by each
    label's support (0 when no label has support). *)
Definition average_scores (avg : average) (y_true : matrix)
    (per_label : list Qc) : Qc :=
  match avg with
  | macro => mean per_label
  | weighted =>
      let w := (λ ys, of_nat (support ys)) <$> columns y_true in
      (sum (zip_with Qcmult w per_label) / sum w)%Qc
  end.

(** F1 of one label from hard predictions: 2TP / (2TP + FP + FN), and 0
    when the label is neither present nor predicted. *)
Definition f1_binary (ys ps : list Qc) : Qc :=
  let tp := count (λ p, is_pos p.1 && is_pos p.2) (zip ys ps) in
  let fp := count (λ p, negb (is_pos p.1) && is_pos p.2) (zip ys ps) in
  let fn := count (λ p, is_pos p.1 && negb (is_pos p.2)) (zip ys ps) in
  (of_nat (2 * tp) / of_nat (2 * tp + fp + fn))%Qc.

(** [sklearn.metrics.f1_score] on indicator matrices of two or more label
    columns (a multilabel target): one F1 per label column, then
    [average=].  A matrix with a single column is a binary target, which
    the library scores over the classes 0 and 1; that path is not
    covered. *)
Definition f1_score (y_true y_pred : matrix) (avg : average) : result Qc :=
  check_consistent_length y_true y_pred;;
  check_non_empty y_true;;
  Ok (average_scores avg y_true
        (zip_with f1_binary (columns y_true) (columns y_pred))).

(** Average precision of one label: the sum over the thresholds [t] (the
    distinct scores) of (R(t) - R(previous t)) * P(t).  The recall step at
    [t] is the share of the positives scored exactly [t]; the precision
    at [t] is taken over the samples scored at least [t].  A label with
    no positive sample scores 0. *)
Definition precision_at (ys ss : list Qc) (t : Qc) : Qc :=
  let sel := List.filter (λ p, bool_decide (t ≤ p.2)%Qc) (zip ys ss) in
  (of_nat (count (λ p, is_pos p.1) sel) / of_nat (length sel))%Qc.
Definition recall_step (ys ss : list Qc) (t : Qc) : Qc :=
  (of_nat (count (λ p, is_pos p.1 && bool_decide (p.2 = t)) (zip ys ss))
   / of_nat (support ys))%Qc.
Definition average_precision_binary (ys ss : list Qc) : Qc :=
  sum ((λ t, recall_step ys ss t * precision_at ys ss t)%Qc
         <$> remove_dups ss).

(** [sklearn.metrics.average_precision_score] on an indicator matrix and
    a matrix of scores: one average precision per label column, then
    [average=]. *)
Definition average_precision_score (y_true y_score : matrix)
    (avg : average) : result Qc :=
  check_consistent_length y_true y_score;;
  check_non_empty y_true;;
  Ok (average_scores avg y_true
        (zip_with average_precision_binary (columns y_true) (columns y_score))).

(** Area under the ROC curve of one label: the share of (positive,
    negative) sample pairs that the scores rank correctly, a tie counting
    one half.  It is undefined when the column holds a single class; the
    releases of the library contemporary with [train.py] then raise a
    [ValueError], which is what is recorded here (later releases warn and
    return a not-a-number instead). *)
Definition pair_score (sp sn : Qc) : Qc :=
  if bool_decide (sn < sp)%Qc then 1%Qc
  else if bool_decide (sp = sn) then Q2Qc (1 # 2)
  else 0%Qc.
Definition roc_auc_binary (ys ss : list Qc) : result Qc :=
  let pos := snd <$> List.filter (λ p, is_pos p.1) (zip ys ss) in
  let neg := snd <$> List.filter (λ p, negb (is_pos p.1)) (zip ys ss) in
  if bool_decide (pos = [] ∨ neg = [])
  then Raise (ValueError
    "Only one class present in y_true. ROC AUC score is not defined in that case.")
  else Ok (sum ((λ sp, sum (pair_score sp <$> neg)) <$> pos)
           / of_nat (length pos * length neg))%Qc.

(** [sklearn.metrics.roc_auc_score].  The library dispatches on the type
    of [y_true]; a 2-D indicator matrix is a multilabel target, for which
    it computes one binary ROC AUC per label column and averages them
    ([average="macro"] by default).  [multi_class] is documented as "only
    used for multiclass targets" and is not consulted on this path. *)
Definition roc_auc_score (y_true y_score : matrix) (mc : multi_class)
    : result Qc :=
  check_consistent_length y_true y_score;;
  check_non_empty y_true;;
  per_label ← mapM (λ p, roc_auc_binary p.1 p.2)
                   (zip (columns y_true) (columns y_score));
  Ok (mean per_label).


(** *** Label binarization *)

(** Python's [sorted] on strings: ascending code point order, which is the
    byte order of the encoded text. *)
Definition py_sorted (l : list string) : list string :=
  merge_sort String.le l.

(** Warnings are issued on the side; the calls below return the ones
    they issue next to their value. *)
Inductive warning :=
  | UnknownClassesIgnored (labels : list string).

(** [sklearn.preprocessing.MultiLabelBinarizer]: the constructor argument
    [classes] ([None]: infer the classes from the data passed to [fit])
    and the attribute [classes_], unset until [fit] runs. *)
Record MultiLabelBinarizer := mkMLB {
  classes : option (list string);
  classes_ : option (list string);
}.

(** [MultiLabelBinarizer.fit]: with [classes] given, they are taken as they
    are after a check for duplicates ([ValueError]); otherwise the classes
    are the sorted distinct labels of [y]. *)
Definition fit (mlb : MultiLabelBinarizer) (y : list (list string))
    : result MultiLabelBinarizer :=
  match classes mlb with
  | None => Ok (mkMLB None (Some (py_sorted (remove_dups (concat y)))))
  | Some cs =>
      if bool_decide (NoDup cs) then Ok (mkMLB (Some cs) (Some cs))
      else Raise (ValueError
        "The classes argument contains duplicate classes. Remove these duplicates before passing them to MultiLabelBinarizer.")
  end.

(** [dict(zip(classes_, range(len(classes_))))]: a later pair replaces an
    earlier one with the same key. *)
Definition class_to_index (cs : list string) : gmap string nat :=
  foldl (λ m p, <[p.1 := p.2]> m) ∅ (zip cs (seq 0 (length cs))).

(** [_transform]: per label set, the set of column indices of its labels
    that are in the mapping; a label that is not ([KeyError]) is put
    aside in [unknown].  The row holds 1 at the collected indices. *)
Definition row_indices (cm : gmap string nat) (labels : list string)
    : gset nat :=
  list_to_set (omap (λ l, cm !! l) labels).
Definition indicator_row (n : nat) (index : gset nat) : list Qc :=
  (λ j, if bool_decide (j ∈ index) then 1%Qc else 0%Qc) <$> seq 0 n.
Definition unknown (cm : gmap string nat) (y : list (list string))
    : list string :=
  py_sorted (remove_dups
    (List.filter (λ l, bool_decide (cm !! l = None)) (concat y))).

(** [MultiLabelBinarizer.transform]: needs a fitted binarizer.  Unknown
    labels do not stop it: the library leaves them out of the rows and
    reports them in one warning, "unknown class(es) ... will be ignored".
    There is no exception for a label outside the classes. *)
Definition transform (mlb : MultiLabelBinarizer) (y : list (list string))
    : result (matrix * list warning) :=
  match classes_ mlb with
  | None => Raise (NotFittedError "MultiLabelBinarizer")
  | Some cs =>
      let cm := class_to_index cs in
      let yt := (λ labels, indicator_row (length cs) (row_indices cm labels))
                  <$> y in
      Ok (yt, match unknown cm y with
              | [] => []
              | u => [UnknownClassesIgnored u]
              end)
  end.

(** [fit_transform]: [self.fit(y).transform(y)] when [classes] is given;
    when it is not, the library fuses the two steps, with the same
    result.  The receiver is mutated by [fit]; the updated object is
    returned with the matrix. *)
Definition fit_transform (mlb : MultiLabelBinarizer) (y : list (list string))
    : result (MultiLabelBinarizer * matrix * list warning) :=
  mlb' ← fit mlb y;
  r ← transform mlb' y;
  Ok (mlb', r.1, r.2).

(** *** Logistic regression, one classifier per label *)

(** [sklearn.linear_model.LogisticRegression]: the constructor
    arguments that [train.py] sets. *)
Record LogisticRegression := mkLR {
  penalty : string;
  C : Qc;
  dual : bool;
  solver : string;
}.

(** A fitted per-label estimator: a logistic regression with its learned
    weights, or the library's [_ConstantPredictor], used for a label
    whose training column holds a single value. *)
Inductive BinaryEstimator :=
  | FittedLogisticRegression (params : LogisticRegression)
      (coef_ : list Qc) (intercept_ : Qc)
  | ConstantPredictor (y_ : Qc).

(** [sklearn.multiclass.OneVsRestClassifier]: the estimator to clone per
    label and, once fitted, the per-label estimators in column order. *)
Record OneVsRestClassifier := mkOvR {
  estimator : LogisticRegression;
  estimators_ : option (list BinaryEstimator);
}.

Section Estimators.

(** The numeric optimisation of the regularised logistic loss done by
    liblinear, from the penalty kind, the inverse regularisation
    strength, the features and one 0/1 target column to the weights
    and the intercept. *)
Context (liblinear : string → Qc → matrix → list Qc → list Qc * Qc).

(** [LogisticRegression.fit]: parameter validation, the check that [X]
    and [y] have as many samples, the check that [y] holds two
    classes, then the solver.  No [random_state] is set on line 27, so
    the real solver may also draw on the global random generator (it
    shuffles the samples); [liblinear] stands for the solver as it runs
    in the call at hand, and nothing below relies on two calls returning
    the same weights. *)
Definition LogisticRegression_fit (lr : LogisticRegression)
    (X : matrix) (y : list Qc) : result BinaryEstimator :=
  if negb (bool_decide (penalty lr = "l1" ∨ penalty lr = "l2"))
  then Raise (ValueError "penalty is not supported by the liblinear solver")
  else if negb (bool_decide (0 < C lr)%Qc)
  then Raise (ValueError "C must be a positive float")
  else if negb (bool_decide (length X = length y))
  then Raise (ValueError
    "Found input variables with inconsistent numbers of samples")
  else if bool_decide (length (remove_dups y) < 2)
  then Raise (ValueError
    "This solver needs samples of at least 2 classes in the data")
  else let wb := liblinear (penalty lr) (C lr) X y in
       Ok (FittedLogisticRegression lr wb.1 wb.2).

(** [sklearn.multiclass._fit_binary]: a column with a single distinct
    value gets a constant predictor, without looking at [X] (the library
    warns that the label is present in all, or in no, training examples);
    any other column gets a clone of the estimator, fitted on [X] and
    that column. *)
Definition _fit_binary (est : LogisticRegression) (X : matrix)
    (y : list Qc) : result BinaryEstimator :=
  match remove_dups y with
  | [c] => Ok (ConstantPredictor c)
  | _ => LogisticRegression_fit est X y
  end.

(** What [LabelBinarizer] makes of the target of [fit].  A 0/1 matrix
    with two or more columns is a multilabel target and is kept as it
    is.  A single 0/1 column is a binary target: it is kept when both
    values occur, and becomes a column of zeros when only one does. *)
Definition is_indicator (y : matrix) : bool :=
  bool_decide (Forall (λ r, length r = n_columns y
                            ∧ Forall (λ c, c = 0%Qc ∨ c = 1%Qc) r) y).
Definition label_binarize (y : matrix) : matrix :=
  if bool_decide (n_columns y = 1 ∧ length (remove_dups (column 0 y)) = 1)
  then (λ _, [0%Qc]) <$> y
  else y.

(** [OneVsRestClassifier.fit]: the target must have at least one sample
    and be a 0/1 array with at least one column ([ValueError] otherwise);
    its columns are then fitted one after the other, each by
    [_fit_binary] alone.  The method itself never compares the number of
    rows of [X] with that of [y]; only the per-label estimators can. *)
Definition OneVsRestClassifier_fit (clf : OneVsRestClassifier)
    (X : matrix) (y : matrix) : result OneVsRestClassifier :=
  if bool_decide (y = []) then Raise (ValueError "y has 0 samples")
  else if negb (is_indicator y) || bool_decide (n_columns y = 0)
  then Raise (ValueError "Unknown label type")
  else
    ests ← mapM (_fit_binary (estimator clf) X) (columns (label_binarize y));
    Ok (mkOvR (estimator clf) (Some ests)).

(** [decision_function] of a per-label estimator: the margin
    [w . x + b] per row, or the constant.  An array without samples is
    rejected. *)
Definition dot (w x : list Qc) : Qc := sum (zip_with Qcmult w x).
Definition decision_function_binary (e : BinaryEstimator) (X : matrix)
    : result (list Qc) :=
  if bool_decide (X = [])
  then Raise (ValueError "Found array with 0 sample(s)")
  else
  match e with
  | FittedLogisticRegression _ w b =>
      mapM (λ x, if bool_decide (length x = length w)
                 then Ok (dot w x + b)%Qc
                 else Raise (ValueError
                   "X has a different number of features than the estimator expects")) X
  | ConstantPredictor c => Ok (replicate (length X) c)
  end.

Definition from_columns (n : nat) (cols : list (list Qc)) : matrix :=
  (λ i, (λ col, default 0%Qc (col !! i)) <$> cols) <$> seq 0 n.

(** [OneVsRestClassifier.decision_function] of a classifier fitted on two
    or more label columns: the per-label margins, one column per label.
    With a single label column the library returns a one-dimensional
    array; that path is not covered. *)
Definition decision_function (clf : OneVsRestClassifier) (X : matrix)
    : result matrix :=
  match estimators_ clf with
  | None => Raise (NotFittedError "OneVsRestClassifier")
  | Some ests =>
      cols ← mapM (λ e, decision_function_binary e X) ests;
      Ok (from_columns (length X) cols)
  end.

(** [OneVsRestClassifier.predict] for a multilabel target, that is, for a
    classifier fitted on two or more label columns: a label is assigned
    where its margin exceeds the threshold, which the library derives
    from the first estimator (0 for a classifier with a decision
    function, 0.5 otherwise).  With a single label column the target is
    binary and the library maps the result back through its label
    binarizer to a one-dimensional array of class labels; that path is
    not covered. *)
Definition threshold (ests : list BinaryEstimator) : Qc :=
  match ests with
  | FittedLogisticRegression _ _ _ :: _ => 0%Qc
  | _ => Q2Qc (1 # 2)
  end.
Definition predict (clf : OneVsRestClassifier) (X : matrix)
    : result matrix :=
  match estimators_ clf with
  | None => Raise (NotFittedError "OneVsRestClassifier")
  | Some ests =>
      cols ← mapM (λ e, decision_function_binary e X) ests;
      Ok (from_columns (length X)
            ((λ col : list Qc, (λ s, if bool_decide (threshold ests < s)%Qc
                           then 1%Qc else 0%Qc) <$> col) <$> cols))
  end.

End Estimators.

End Sklearn.


(** ** [train.py]: the evaluation reporter *)

(** The line feed character that ends each report line. *)
Definition nl : string := String (ascii_of_nat 10) EmptyString.

Section Reporter.
Import Sklearn.

(** [fmt] is Python's rendering of a float by ["{}".format]; the four
    metric functions are the ones imported from [sklearn.metrics]
    (lines 5-10).  The reporter is verified for any implementation of
    them. *)
Context (fmt : Qc → string).
Context (accuracy_score : matrix → matrix → result Qc).
Context (f1_score : matrix → matrix → average → result Qc).
Context (average_precision_score : matrix → matrix → average → result Qc).
Context (roc_auc_score : matrix → matrix → multi_class → result Qc).

(** Lines 34-58. *)
Definition write_evaluation_scores (f_name : string)
    (y_val pred_labels pred_scores : matrix) : IO unit :=
  with_open_w ("output/" +:+ f_name) (λ f,
    a ← lift (accuracy_score y_val pred_labels);
    write f ("Accuracy score: " +:+ fmt a +:+ nl);;
    b ← lift (f1_score y_val pred_labels weighted);
    write f ("F1 score: " +:+ fmt b +:+ nl);;
    c ← lift (average_precision_score y_val pred_labels macro);
    write f ("Average precision score: " +:+ fmt c +:+ nl);;
    d ← lift (roc_auc_score y_val pred_scores ovo);
    write f ("ROC AUC score: " +:+ fmt d +:+ nl)).

End Reporter.

(** ** [train.py]: training and the main function *)

Section Pipeline.
Import Sklearn.

Context (fmt : Qc → string).
Context (liblinear : string → Qc → matrix → list Qc → list Qc * Qc).

(** [joblib.load] and [joblib.dump] read and write opaque serialised
    artifacts; the (de)serialisers are left abstract. *)
Context (unpickle_data : string → result (matrix * list (list string))).
Context (unpickle_tags : string → result (list string)).
Context (pickle_clf : OneVsRestClassifier → string).
Context (pickle_mlb : MultiLabelBinarizer → string).

Definition load {A} (unpickle : string → result A) (path : string) : IO A :=
  λ fs, match files fs !! path with
        | Some s => (unpickle s, fs)
        | None => (Raise (FileNotFoundError path), fs)
        end.
Definition dump (s : string) (path : string) : IO unit :=
  with_open_w path (λ f, write f s).

(** Lines 15-31.  The defaults [penalty="l1"] and [C=1] of the signature
    are not used by [main], which passes both. *)
Definition train_classifier (X_train : matrix) (y_train : matrix)
    (penalty : string) (C : Qc) : result OneVsRestClassifier :=
  let clf := mkLR penalty C false "liblinear" in
  let clf := mkOvR clf None in
  OneVsRestClassifier_fit liblinear clf X_train y_train.

(** Lines 67-69 of [main]: one binarizer, constructed with the sorted
    tags as its classes, is fitted and applied to the train label sets
    and then to the validation label sets. *)
Definition main_binarize (sorted_tags : list string)
    (y_train y_val : list (list string))
    : result (MultiLabelBinarizer * matrix * matrix) :=
  let mlb := mkMLB (Some (py_sorted sorted_tags)) None in
  '(mlb, y_train, _) ← fit_transform mlb y_train;
  '(mlb, y_val, _) ← fit_transform mlb y_val;
  Ok (mlb, y_train, y_val).

(** Lines 61-87. *)
Definition main : IO unit :=
  '(X_train_tfidf, y_train) ← load unpickle_data "output/train_tfidf.joblib";
  '(X_val_tfidf, y_val) ← load unpickle_data "output/validation_tfidf.joblib";
  sorted_tags ← load unpickle_tags "output/sorted_tags.joblib";
  '(mlb, y_train, y_val) ← lift (main_binarize sorted_tags y_train y_val);
  let coefficient := Q2Qc 10 in
  let penalty := "l2" in
  classifier_tfidf ←
    lift (train_classifier X_train_tfidf y_train penalty coefficient);
  y_val_predicted_labels_tfidf ← lift (predict classifier_tfidf X_val_tfidf);
  y_val_predicted_scores_tfidf ←
    lift (decision_function classifier_tfidf X_val_tfidf);
  write_evaluation_scores fmt accuracy_score f1_score
    average_precision_score roc_auc_score
    "stats.txt" y_val y_val_predicted_labels_tfidf y_val_predicted_scores_tfidf;;
  dump (pickle_clf classifier_tfidf) "output/model_tfidf.joblib";;
  dump (pickle_mlb mlb) "output/mlb.joblib".

End Pipeline.

(** ** Reading a report back *)

(** Whether a text contains a line feed. *)
Fixpoint has_newline (s : string) : bool :=
  match s with
  | EmptyString => false
  | String c s' => Ascii.eqb c (ascii_of_nat 10) || has_newline s'
  end.

(** The lines of a text, without their line feeds. *)
Fixpoint split_lines (s : string) : list string :=
  match s with
  | EmptyString => []
  | String c s' =>
      if Ascii.eqb c (ascii_of_nat 10) then "" :: split_lines s'
      else match split_lines s' with
           | [] => [String c ""]
           | l :: ls => String c l :: ls
           end
  end.

(** What a sequence of named metric computations leaves in the report when
    each line is written as soon as its metric is computed: the lines up to
    the first metric that raises, and the exception that ends the run. *)
Fixpoint lines_until_failure (fmt : Qc → string)
    (ms : list (string * result Qc)) : string :=
  match ms with
  | (name, Ok v) :: ms' =>
      (name +:+ ": " +:+ fmt v +:+ nl) +:+ lines_until_failure fmt ms'
  | _ => ""
  end.
Fixpoint first_failure (ms : list (string * result Qc)) : option exn :=
  match ms with
  | [] => None
  | (_, Ok _) :: ms' => first_failure ms'
  | (_, Raise e) :: _ => Some e
  end.

Section ReportContents.
Import Sklearn.
Context (accuracy_score : matrix → matrix → result Qc).
Context (f1_score : matrix → matrix → average → result Qc).
Context (average_precision_score : matrix → matrix → average → result Qc).
Context (roc_auc_score : matrix → matrix → multi_class → result Qc).

(** The four metric computations of a run of [write_evaluation_scores],
    with the names of their report lines, in the order of lines 45-58. *)
Definition metric_calls (y_val pred_labels pred_scores : matrix)
    : list (string * result Qc) :=
  [ ("Accuracy score", accuracy_score y_val pred_labels);
    ("F1 score", f1_score y_val pred_labels weighted);
    ("Average precision score", average_precision_score y_val pred_labels macro);
    ("ROC AUC score", roc_auc_score y_val pred_scores ovo) ].
End ReportContents.

(** ** The outcome of a per-label fit *)

Section FitOutcome.
Import Sklearn.
Context (liblinear : string → Qc → matrix → list Qc → list Qc * Qc).

End FitOutcome.

(** ** The one-vs-one ROC AUC that the specification describes *)

(** Modelled from the spec: section 4.4 (4), "multi-class AUC computed via
    one-vs-one pairwise comparison among labels using pred_scores, averaged
    across all label pairs".  For a pair of labels [a < b] only the samples
    carrying [a] or [b] are kept; on them the ROC AUC of [a] is taken from
    the scores of column [a] and the ROC AUC of [b] from those of column
    [b]; the pair scores the mean of the two, and the metric is the mean
    over all pairs.  This is the quantity to compare with what
    [roc_auc_score] returns on the arguments of line 56. *)
Definition ovo_pair_auc (y_true y_score : Sklearn.matrix) (a b : nat)
    : result Qc :=
  let rows := List.filter
    (λ p, Sklearn.is_pos (default 0%Qc (p.1 !! a))
          || Sklearn.is_pos (default 0%Qc (p.1 !! b)))
    (zip y_true y_score) in
  auc_a ← Sklearn.roc_auc_binary (Sklearn.column a rows.*1)
                                 (Sklearn.column a rows.*2);
  auc_b ← Sklearn.roc_auc_binary (Sklearn.column b rows.*1)
                                 (Sklearn.column b rows.*2);
  Ok ((auc_a + auc_b) / Q2Qc 2)%Qc.

Definition label_pairs (n : nat) : list (nat * nat) :=
  a ← seq 0 n; (λ b, (a, b)) <$> seq (S a) (n - S a).

Definition ovo_roc_auc (y_true y_score : Sklearn.matrix) : result Qc :=
  per_pair ← mapM (λ ab, ovo_pair_auc y_true y_score ab.1 ab.2)
                  (label_pairs (Sklearn.n_columns y_true));
  Ok (Sklearn.mean per_pair).

(** ** Worked inputs *)

(** A rendering of a rational as "numerator/denominator"; it stands in for
    Python's float formatting in the worked examples. *)
Definition fmt_frac (v : Qc) : string :=
  pretty (Qnum (this v)) +:+ "/" +:+ pretty (Zpos (Qden (this v))).

(** [write_evaluation_scores] with the metrics of scikit-learn. *)
Definition evaluate : string → Sklearn.matrix → Sklearn.matrix →
    Sklearn.matrix → IO unit :=
  write_evaluation_scores fmt_frac Sklearn.accuracy_score Sklearn.f1_score
    Sklearn.average_precision_score Sklearn.roc_auc_score.

(** A file system holding only the directory [output]. *)
Definition fs_output : FS := mkFS {["output"]} ∅.

Definition frac (a : Z) (b : positive) : Qc := Q2Qc (a # b).

(** Four validation samples over two labels: true labels, decision margins
    of a classifier, and the hard predictions the margins give (a label is
    predicted where its margin is positive). *)
Definition ex_y_val : Sklearn.matrix :=
  [[1; 0]; [0; 1]; [1; 1]; [0; 0]]%Qc.
Definition ex_pred_scores : Sklearn.matrix :=
  [[frac 3 2; frac (-1) 2]; [frac 1 10; frac 2 1];
   [frac 5 2; frac (-1) 10]; [frac (-3) 1; frac (-2) 1]].
Definition ex_pred_labels : Sklearn.matrix :=
  [[1; 0]; [1; 1]; [1; 0]; [0; 0]]%Qc.

(** The indicator value of a proposition. *)
Definition indicator (P : Prop) `{Decision P} : Qc :=
  if bool_decide P then 1%Qc else 0%Qc.

(** Number of rows at which two matrices hold the same row. *)
Definition exact_matches (y_true y_pred : Sklearn.matrix) : nat :=
  length (filter (λ r, y_true !! r = y_pred !! r) (seq 0 (length y_true))).

(** A stand-in for the liblinear solver in worked examples: zero weights
    and the mean of the target column as intercept. *)
Definition ex_solver (penalty : string) (C : Qc) (X : Sklearn.matrix)
    (y : list Qc) : list Qc * Qc :=
  (replicate (Sklearn.n_columns X) 0%Qc, Sklearn.mean y).

(** Three training samples with two features. *)
Definition ex_X_train : Sklearn.matrix :=
  [[1; 0]; [0; 1]; [1; 1]]%Qc.

(** Whether an exception is a [ValueError]. *)
Definition is_ValueError (e : exn) : Prop :=
  match e with ValueError _ => True | _ => False end.

(** Four validation samples over three labels, each carrying one label
    (the first, the second, the third, the third), with decision margins
    and the hard predictions they give. *)
Definition ex3_y_val : Sklearn.matrix :=
  [[1; 0; 0]; [0; 1; 0]; [0; 0; 1]; [0; 0; 1]]%Qc.
Definition ex3_pred_scores : Sklearn.matrix :=
  [[frac 1 10; frac (-3) 10; frac (-2) 10];
   [frac 5 10; frac 4 10; frac (-3) 10];
   [frac (-3) 10; frac (-1) 10; frac 5 10];
   [frac (-2) 10; frac (-2) 10; frac 4 10]].
Definition ex3_pred_labels : Sklearn.matrix :=
  [[1; 0; 0]; [1; 1; 0]; [0; 0; 1]; [0; 0; 1]]%Qc.

(** Validation labels in which the second label never occurs. *)
Definition ex_y_val_rare : Sklearn.matrix :=
  [[1; 0]; [0; 0]; [1; 0]; [0; 0]]%Qc.

(** ** The stages of [main] *)

Section PipelineStages.
Import Sklearn.
Context (liblinear : string → Qc → matrix → list Qc → list Qc * Qc).
Context (unpickle_data : string → result (matrix * list (list string))).
Context (unpickle_tags : string → result (list string)).

(** Lines 63-65 of [main]: the three loads, in the order of the source.
    They read the file system and leave it as it is. *)
Definition main_load
    : IO (matrix * list (list string) * (matrix * list (list string))
          * list string) :=
  train ← load unpickle_data "output/train_tfidf.joblib";
  val ← load unpickle_data "output/validation_tfidf.joblib";
  sorted_tags ← load unpickle_tags "output/sorted_tags.joblib";
  mret (train, val, sorted_tags).

(** Lines 67-78 of [main]: binarization, training with the penalty "l2"
    and the coefficient 10, and the two predictions on the validation
    features.  No file is touched. *)
Definition main_fit_predict (train val : matrix * list (list string))
    (sorted_tags : list string)
    : result (MultiLabelBinarizer * matrix * OneVsRestClassifier
              * matrix * matrix) :=
  '(mlb, y_train, y_val) ← main_binarize sorted_tags train.2 val.2;
  classifier_tfidf ← train_classifier liblinear train.1 y_train "l2" (Q2Qc 10);
  pred_labels ← predict classifier_tfidf val.1;
  pred_scores ← decision_function classifier_tfidf val.1;
  Ok (mlb, y_val, classifier_tfidf, pred_labels, pred_scores).
End PipelineStages.

(** ** A worked run of [main] *)

(** Serialised artifacts are named by a word; the two data sets and the
    tag list below are what the words stand for. *)
Definition ex_unpickle_data (s : string)
    : result (Sklearn.matrix * list (list string)) :=
  if bool_decide (s = "train")
  then Ok ([[1; 0]; [0; 1]; [1; 1]]%Qc, [["a"]; ["b"]; ["b"; "a"]])
  else if bool_decide (s = "validation")
  then Ok ([[1; 0]; [0; 1]]%Qc, [["a"]; ["b"]])
  else if bool_decide (s = "validation without b")
  then Ok ([[1; 0]; [0; 1]]%Qc, [["a"]; ["a"]])
  else Raise (ValueError "not a data set").
Definition ex_unpickle_tags (s : string) : result (list string) :=
  if bool_decide (s = "tags") then Ok ["b"; "a"]
  else Raise (ValueError "not a tag list").
Definition ex_pickle_clf (clf : Sklearn.OneVsRestClassifier) : string :=
  "classifier".
Definition ex_pickle_mlb (mlb : Sklearn.MultiLabelBinarizer) : string :=
  "binarizer".

(** [main] with the worked solver and serialisers. *)
Definition ex_main : IO unit :=
  main fmt_frac ex_solver ex_unpickle_data ex_unpickle_tags
    ex_pickle_clf ex_pickle_mlb.

(** A file system with the three inputs of [main] in [output]. *)
Definition fs_inputs : FS :=
  mkFS {["output"]}
    (<["output/train_tfidf.joblib" := "train"]>
     (<["output/validation_tfidf.joblib" := "validation"]>
      (<["output/sorted_tags.joblib" := "tags"]> ∅))).

(** The same, with a validation set in which the tag b never occurs. *)
Definition fs_inputs_rare : FS :=
  mkFS {["output"]}
    (<["output/train_tfidf.joblib" := "train"]>
     (<["output/validation_tfidf.joblib" := "validation without b"]>
      (<["output/sorted_tags.joblib" := "tags"]> ∅))).

(** Lines 82-87 of [main], once the metric outcomes [ms] and the two
    serialised artifacts are known: the report, then the model, then the
    binarizer, each file opened for writing in turn, the run ending at the
    first step that raises.  This is the form in which the writes of
    [main] are compared with the source. *)
Definition main_writes (fmt : Qc → string) (ms : list (string * result Qc))
    (model binarizer : string) (fs : FS) : result unit * FS :=
  match (open_w "output/stats.txt" fs).1 with
  | Raise e => (Raise e, fs)
  | Ok _ =>
      let fs1 := mkFS (dirs fs)
        (<["output/stats.txt" := lines_until_failure fmt ms]> (files fs)) in
      match first_failure ms with
      | Some e => (Raise e, fs1)
      | None =>
          match (open_w "output/model_tfidf.joblib" fs).1 with
          | Raise e => (Raise e, fs1)
          | Ok _ =>
              let fs2 := mkFS (dirs fs)
                (<["output/model_tfidf.joblib" := model]> (files fs1)) in
              match (open_w "output/mlb.joblib" fs).1 with
              | Raise e => (Raise e, fs2)
              | Ok _ =>
                  (Ok tt, mkFS (dirs fs)
                     (<["output/mlb.joblib" := binarizer]> (files fs2)))
              end
          end
      end
  end.

(** * Theorems *)

(** ** Strings and the file system *)

Lemma append_assoc (a b c : string) : (a +:+ b) +:+ c = a +:+ (b +:+ c).
Proof.
  induction a as [|x a IH]; [done|].
  change (String x ((a +:+ b) +:+ c) = String x (a +:+ b +:+ c)).
  by rewrite IH.
Qed.

Lemma append_empty_r (a : string) : a +:+ "" = a.
Proof.
  induction a as [|x a IH]; [done|].
  change (String x (a +:+ "") = String x a). by rewrite IH.
Qed.

Lemma has_newline_app (a b : string) :
  has_newline (a +:+ b) = has_newline a || has_newline b.
Proof.
  induction a as [|x a IH]; [done|].
  change (String x a +:+ b) with (String x (a +:+ b)). simpl.
  by rewrite IH, orb_assoc.
Qed.

Lemma split_lines_line (s rest : string) :
  has_newline s = false →
  split_lines (s +:+ nl +:+ rest) = s :: split_lines rest.
Proof.
  induction s as [|x s IH]; intros Hs.
  - done.
  - simpl in Hs. apply orb_false_iff in Hs as [Hx Hs].
    change (String x s +:+ nl +:+ rest) with (String x (s +:+ nl +:+ rest)).
    simpl. rewrite Hx, (IH Hs). done.
Qed.



Lemma open_w_result_dirs (p : string) (fs fs' : FS) :
  dirs fs = dirs fs' → (open_w p fs).1 = (open_w p fs').1.
Proof.
  intros Hd. unfold open_w. rewrite Hd. by repeat case_bool_decide.
Qed.

Section ReporterFacts.
Import Sklearn.
Context (fmt : Qc → string).
Context (accuracy_score : matrix → matrix → result Qc).
Context (f1_score : matrix → matrix → average → result Qc).
Context (average_precision_score : matrix → matrix → average → result Qc).
Context (roc_auc_score : matrix → matrix → multi_class → result Qc).

Local Abbreviation wes := (write_evaluation_scores fmt accuracy_score f1_score
                   average_precision_score roc_auc_score).
Local Abbreviation calls := (metric_calls accuracy_score f1_score
                   average_precision_score roc_auc_score).

Lemma write_after (f s c : string) (d : gset string) (m : gmap string string) :
  write f s (mkFS d (<[f := c]> m)) = (Ok tt, mkFS d (<[f := c +:+ s]> m)).
Proof.
  unfold write. simpl. by rewrite lookup_insert_eq, insert_insert_eq.
Qed.

(** Once the file is open, the run is determined by the metric outcomes:
    it ends at the first one that raises, and the file holds the lines
    written until then. *)
Lemma write_evaluation_scores_body f_name y_val pred_labels pred_scores fs :
  let path := "output/" +:+ f_name in
  let ms := calls y_val pred_labels pred_scores in
  wes f_name y_val pred_labels pred_scores fs =
    match open_w path fs with
    | (Ok _, _) =>
        (match first_failure ms with None => Ok tt | Some e => Raise e end,
         mkFS (dirs fs) (<[path := lines_until_failure fmt ms]> (files fs)))
    | (Raise e, _) => (Raise e, fs)
    end.
Proof.
  intros path ms. unfold write_evaluation_scores, with_open_w.
  fold path. unfold mbind at 1, IO_bind at 1.
  unfold open_w. repeat case_bool_decide; try done.
  unfold ms, metric_calls, lift, mbind, IO_bind, write.
  destruct (accuracy_score y_val pred_labels) as [a|e]; [|done].
  destruct (f1_score y_val pred_labels weighted) as [b|e];
    [destruct (average_precision_score y_val pred_labels macro) as [c|e];
     [destruct (roc_auc_score y_val pred_scores ovo) as [d|e]|]|];
    simpl; rewrite ?lookup_insert_eq, ?insert_insert_eq; simpl;
    rewrite ?append_empty_r, ?append_assoc; reflexivity.
Qed.
End ReporterFacts.

Lemma pretty_N_go_no_newline (x : N) (s : string) :
  has_newline s = false → has_newline (pretty_N_go x s) = false.
Proof.
  revert s. induction (N.lt_wf_0 x) as [x _ IH]; intros s Hs.
  assert (x = 0 ∨ 0 < x)%N as [->|?] by lia.
  - by rewrite pretty_N_go_0.
  - rewrite pretty_N_go_step by done. apply IH.
    { by apply N.div_lt. }
    simpl. rewrite Hs. unfold pretty_N_char. by repeat case_match.
Qed.

Lemma pretty_Z_no_newline (z : Z) : has_newline (pretty z) = false.
Proof.
  assert (∀ p : positive, has_newline (pretty p) = false) as Hp.
  { intros p. unfold pretty, pretty_positive, pretty, pretty_N.
    case_decide; [done|]. by apply pretty_N_go_no_newline. }
  destruct z as [|p|p]; [done|apply Hp|].
  unfold pretty, pretty_Z. rewrite has_newline_app. by rewrite Hp.
Qed.

Lemma fmt_frac_no_newline (v : Qc) : has_newline (fmt_frac v) = false.
Proof.
  unfold fmt_frac. by rewrite !has_newline_app, !pretty_Z_no_newline.
Qed.

(** ** The evaluation report *)

Section ReporterClaims.
Import Sklearn.
Context (fmt : Qc → string).
Context (accuracy_score : matrix → matrix → result Qc).
Context (f1_score : matrix → matrix → average → result Qc).
Context (average_precision_score : matrix → matrix → average → result Qc).
Context (roc_auc_score : matrix → matrix → multi_class → result Qc).

Local Abbreviation wes := (write_evaluation_scores fmt accuracy_score f1_score
                   average_precision_score roc_auc_score).
Local Abbreviation calls := (metric_calls accuracy_score f1_score
                   average_precision_score roc_auc_score).

(** A run that completes computed all four metrics and left the four
    lines, in order, in the file at ["output/" + f_name]. *)
Lemma write_evaluation_scores_ok f_name y_val pred_labels pred_scores fs fs' :
  wes f_name y_val pred_labels pred_scores fs = (Ok tt, fs') →
  ∃ a b c d,
    accuracy_score y_val pred_labels = Ok a ∧
    f1_score y_val pred_labels weighted = Ok b ∧
    average_precision_score y_val pred_labels macro = Ok c ∧
    roc_auc_score y_val pred_scores ovo = Ok d ∧
    files fs' !! ("output/" +:+ f_name) =
      Some (("Accuracy score: " +:+ fmt a +:+ nl) +:+
            ("F1 score: " +:+ fmt b +:+ nl) +:+
            ("Average precision score: " +:+ fmt c +:+ nl) +:+
            ("ROC AUC score: " +:+ fmt d +:+ nl)).
Proof.
  rewrite write_evaluation_scores_body.
  destruct (open_w _ fs) as [[f|e] fs1]; [|done].
  unfold metric_calls. simpl.
  destruct (accuracy_score y_val pred_labels) as [a|e]; [|done].
  destruct (f1_score y_val pred_labels weighted) as [b|e]; [|done].
  destruct (average_precision_score y_val pred_labels macro) as [c|e]; [|done].
  destruct (roc_auc_score y_val pred_scores ovo) as [d|e]; [|done].
  intros [= <-]. exists a, b, c, d. repeat split; try done.
  simpl. rewrite lookup_insert_eq. by rewrite append_empty_r.
Qed.

Lemma report_split a b c d :
  (∀ v, has_newline (fmt v) = false) →
  split_lines (("Accuracy score: " +:+ fmt a +:+ nl) +:+
               ("F1 score: " +:+ fmt b +:+ nl) +:+
               ("Average precision score: " +:+ fmt c +:+ nl) +:+
               ("ROC AUC score: " +:+ fmt d +:+ nl)) =
    [ "Accuracy score: " +:+ fmt a; "F1 score: " +:+ fmt b;
      "Average precision score: " +:+ fmt c; "ROC AUC score: " +:+ fmt d ].
Proof.
  intros Hfmt.
  assert (∀ name v, has_newline name = false →
            has_newline (name +:+ fmt v) = false) as Hline.
  { intros name v Hname. by rewrite has_newline_app, Hname, Hfmt. }
  rewrite <-(append_empty_r ("ROC AUC score: " +:+ fmt d +:+ nl)).
  rewrite !append_assoc.
  rewrite <-!(append_assoc _ (fmt _)).
  rewrite !split_lines_line by (by apply Hline). done.
Qed.

(** C1 (as amended): the value on the third line of a completed report,
    "Average precision score", is the macro-averaged average precision
    of the hard label predictions [pred_labels] against [y_val];
    [pred_scores] does not enter it. *)
Theorem C1_average_precision_uses_pred_labels
    f_name y_val pred_labels pred_scores fs fs' :
  (∀ v, has_newline (fmt v) = false) →
  wes f_name y_val pred_labels pred_scores fs = (Ok tt, fs') →
  ∃ v content,
    average_precision_score y_val pred_labels macro = Ok v ∧
    files fs' !! ("output/" +:+ f_name) = Some content ∧
    split_lines content !! 2%nat =
      Some ("Average precision score: " +:+ fmt v).
Proof.
  intros Hfmt Hrun.
  apply write_evaluation_scores_ok in Hrun as (a & b & c & d & _ & _ & Hc & _ & Hfile).
  eexists c, _. split; [done|]. split; [done|].
  by rewrite report_split.
Qed.

(** C2 (as amended): a run that cannot open the report file fails
    leaving the file system as it was.  Otherwise the file at
    ["output/" + f_name] is created or truncated and holds the lines of
    the metrics that precede the first one that raises: all four lines
    when none raises and the run completes, a proper prefix of the report
    when one raises and the run fails with that exception. *)
Theorem C2_report_holds_lines_before_first_failure
    f_name y_val pred_labels pred_scores fs :
  let path := "output/" +:+ f_name in
  let ms := calls y_val pred_labels pred_scores in
  let r := wes f_name y_val pred_labels pred_scores fs in
  match (open_w path fs).1 with
  | Raise e => r = (Raise e, fs)
  | Ok _ =>
      r.1 = match first_failure ms with None => Ok tt | Some e => Raise e end ∧
      files r.2 !! path = Some (lines_until_failure fmt ms)
  end.
Proof.
  intros path ms r. unfold r. rewrite write_evaluation_scores_body.
  fold path ms. destruct (open_w path fs) as [[f|e] fs1]; simpl; [|done].
  by rewrite lookup_insert_eq.
Qed.

(** C4 (as amended): a run that completes leaves a report of exactly four
    lines, each "<Metric name>: <value>" ended by a line feed, in the
    order accuracy, weighted F1, macro average precision, ROC AUC.  A run
    that does not complete leaves fewer lines or none. *)
Theorem C4_report_is_four_lines_in_order
    f_name y_val pred_labels pred_scores fs fs' :
  (∀ v, has_newline (fmt v) = false) →
  wes f_name y_val pred_labels pred_scores fs = (Ok tt, fs') →
  ∃ a b c d content,
    accuracy_score y_val pred_labels = Ok a ∧
    f1_score y_val pred_labels weighted = Ok b ∧
    average_precision_score y_val pred_labels macro = Ok c ∧
    roc_auc_score y_val pred_scores ovo = Ok d ∧
    files fs' !! ("output/" +:+ f_name) = Some content ∧
    content = ("Accuracy score: " +:+ fmt a +:+ nl) +:+
              ("F1 score: " +:+ fmt b +:+ nl) +:+
              ("Average precision score: " +:+ fmt c +:+ nl) +:+
              ("ROC AUC score: " +:+ fmt d +:+ nl) ∧
    split_lines content =
      [ "Accuracy score: " +:+ fmt a; "F1 score: " +:+ fmt b;
        "Average precision score: " +:+ fmt c; "ROC AUC score: " +:+ fmt d ].
Proof.
  intros Hfmt Hrun.
  apply write_evaluation_scores_ok in Hrun
    as (a & b & c & d & Ha & Hb & Hc & Hd & Hfile).
  eexists a, b, c, d, _. split_and!; try done. by apply report_split.
Qed.



End ReporterClaims.

(** The run on the worked input completes. *)
Lemma evaluate_example_completes :
  let r := evaluate "stats.txt" ex_y_val ex_pred_labels ex_pred_scores fs_output in
  r = (Ok tt, r.2).
Proof. vm_compute. reflexivity. Qed.

(** C1, the claim as stated fails: on the worked input the margins rank
    every positive sample of each label first, so the macro average
    precision of [pred_scores] is 1, while the report's third line carries
    17/24, the macro average precision of the hard predictions. *)
Lemma C1_counterexample :
  let r := evaluate "stats.txt" ex_y_val ex_pred_labels ex_pred_scores fs_output in
  r.1 = Ok tt ∧
  match Sklearn.average_precision_score ex_y_val ex_pred_scores Sklearn.macro,
        files r.2 !! "output/stats.txt" with
  | Ok v, Some content =>
      split_lines content !! 2%nat ≠
        Some ("Average precision score: " +:+ fmt_frac v)
  | _, _ => False
  end.
Proof. vm_compute. split; [reflexivity|]. intros [=]. Qed.

Lemma C1_witness :
  ∃ v content,
    Sklearn.average_precision_score ex_y_val ex_pred_labels Sklearn.macro = Ok v ∧
    files (evaluate "stats.txt" ex_y_val ex_pred_labels ex_pred_scores fs_output).2
      !! ("output/" +:+ "stats.txt") = Some content ∧
    split_lines content !! 2%nat =
      Some ("Average precision score: " +:+ fmt_frac v).
Proof.
  apply (C1_average_precision_uses_pred_labels fmt_frac Sklearn.accuracy_score
           Sklearn.f1_score Sklearn.average_precision_score Sklearn.roc_auc_score
           "stats.txt" ex_y_val ex_pred_labels ex_pred_scores fs_output).
  - apply fmt_frac_no_newline.
  - vm_compute. reflexivity.
Defined.

(** C2, the claim as stated fails: when a label never occurs in the
    validation labels its ROC AUC is undefined and the fourth metric
    raises; by then three lines are in the file, which did not exist
    before the run. *)
Lemma C2_counterexample :
  let r := evaluate "stats.txt" ex_y_val_rare ex_pred_labels ex_pred_scores
             fs_output in
  files fs_output !! "output/stats.txt" = None ∧
  r.1 = Raise (ValueError
    "Only one class present in y_true. ROC AUC score is not defined in that case.") ∧
  split_lines <$> files r.2 !! "output/stats.txt" =
    Some [ "Accuracy score: 3/4"; "F1 score: 4/5";
           "Average precision score: 1/3" ].
Proof. vm_compute. auto. Qed.

Lemma C4_witness :
  ∃ a b c d content,
    Sklearn.accuracy_score ex_y_val ex_pred_labels = Ok a ∧
    Sklearn.f1_score ex_y_val ex_pred_labels Sklearn.weighted = Ok b ∧
    Sklearn.average_precision_score ex_y_val ex_pred_labels Sklearn.macro = Ok c ∧
    Sklearn.roc_auc_score ex_y_val ex_pred_scores Sklearn.ovo = Ok d ∧
    files (evaluate "stats.txt" ex_y_val ex_pred_labels ex_pred_scores fs_output).2
      !! ("output/" +:+ "stats.txt") = Some content ∧
    content = ("Accuracy score: " +:+ fmt_frac a +:+ nl) +:+
              ("F1 score: " +:+ fmt_frac b +:+ nl) +:+
              ("Average precision score: " +:+ fmt_frac c +:+ nl) +:+
              ("ROC AUC score: " +:+ fmt_frac d +:+ nl) ∧
    split_lines content =
      [ "Accuracy score: " +:+ fmt_frac a; "F1 score: " +:+ fmt_frac b;
        "Average precision score: " +:+ fmt_frac c;
        "ROC AUC score: " +:+ fmt_frac d ].
Proof.
  apply (C4_report_is_four_lines_in_order fmt_frac Sklearn.accuracy_score
           Sklearn.f1_score Sklearn.average_precision_score Sklearn.roc_auc_score
           "stats.txt" ex_y_val ex_pred_labels ex_pred_scores fs_output).
  - apply fmt_frac_no_newline.
  - vm_compute. reflexivity.
Defined.

(** A run also stops after three lines when the score matrix has fewer rows
    than the label matrix. *)
Example evaluate_shape_mismatch :
  let r := evaluate "stats.txt" ex_y_val ex_pred_labels (take 3 ex_pred_scores)
             fs_output in
  is_ok r.1 = false ∧
  split_lines <$> files r.2 !! "output/stats.txt" =
    Some [ "Accuracy score: 1/2"; "F1 score: 11/15";
           "Average precision score: 17/24" ].
Proof. vm_compute. auto. Qed.

(** The report of the worked run, as text. *)
Example evaluate_example_report :
  split_lines <$>
    files (evaluate "stats.txt" ex_y_val ex_pred_labels ex_pred_scores fs_output).2
      !! "output/stats.txt" =
  Some [ "Accuracy score: 1/2"; "F1 score: 11/15";
         "Average precision score: 17/24"; "ROC AUC score: 1/1" ].
Proof. vm_compute. reflexivity. Qed.

(** ** Label binarization *)

Section BinarizerFacts.
Import Sklearn.

Lemma foldl_insert_union (l : list (string * nat)) (m : gmap string nat) :
  NoDup l.*1 →
  foldl (λ m p, <[p.1 := p.2]> m) m l = list_to_map l ∪ m.
Proof.
  revert m. induction l as [|[k v] l IH]; intros m Hnd.
  - simpl. by rewrite (left_id_L ∅ (∪)).
  - rewrite fmap_cons in Hnd. apply NoDup_cons in Hnd as [Hk Hnd].
    simpl. rewrite IH by done. rewrite <-insert_union_l.
    symmetry. apply insert_union_r. by apply not_elem_of_list_to_map_1.
Qed.

(** With duplicate-free classes, the mapping sends each class to its
    position and knows no other label. *)
Lemma class_to_index_lookup (cs : list string) (c : string) (i : nat) :
  NoDup cs → class_to_index cs !! c = Some i ↔ cs !! i = Some c.
Proof.
  intros Hnd. unfold class_to_index.
  assert ((zip cs (seq 0 (length cs))).*1 = cs) as Hfst.
  { apply fst_zip. by rewrite length_seq. }
  rewrite foldl_insert_union by (by rewrite Hfst).
  rewrite (right_id_L ∅ (∪)).
  rewrite <-elem_of_list_to_map by (by rewrite Hfst).
  rewrite list_elem_of_lookup. split.
  - intros [j Hj]. apply lookup_zip_Some in Hj as [Hc Hi].
    apply lookup_seq in Hi as [-> _]. done.
  - intros Hc. exists i. apply lookup_zip_Some. split; [done|].
    apply lookup_seq. split; [done|]. by eapply lookup_lt_Some.
Qed.

Lemma row_indices_spec (cs labels : list string) (i : nat) (c : string) :
  NoDup cs → cs !! i = Some c →
  i ∈ row_indices (class_to_index cs) labels ↔ c ∈ labels.
Proof.
  intros Hnd Hc. unfold row_indices.
  rewrite elem_of_list_to_set, list_elem_of_omap. split.
  - intros (l & Hl & Hi). apply class_to_index_lookup in Hi; [|done].
    by replace c with l by congruence.
  - intros Hin. exists c. split; [done|]. by apply class_to_index_lookup.
Qed.

(** The matrix that [transform] builds: row [r], column [i] holds 1
    exactly when class [i] is in label set [r]. *)
Lemma indicator_matrix_cell (cs : list string) (y : list (list string))
    (r i : nat) (labels : list string) (c : string) :
  NoDup cs → y !! r = Some labels → cs !! i = Some c →
  cell ((λ labels, indicator_row (length cs)
                     (row_indices (class_to_index cs) labels)) <$> y) r i
    = Some (indicator (c ∈ labels)).
Proof.
  intros Hnd Hr Hc. unfold cell. rewrite list_lookup_fmap, Hr. simpl.
  unfold indicator_row. rewrite list_lookup_fmap.
  rewrite lookup_seq_lt by (by eapply lookup_lt_Some). simpl.
  unfold indicator. f_equal.
  rewrite (bool_decide_ext _ (c ∈ labels)); [done|].
  by apply row_indices_spec.
Qed.

(** A binarizer constructed with duplicate-free classes: every
    [fit_transform] succeeds, keeps these classes, and builds the matrix
    from them alone. *)
Lemma fit_transform_given_classes (cs : list string) (old : option (list string))
    (y : list (list string)) :
  NoDup cs →
  fit_transform (mkMLB (Some cs) old) y =
    Ok (mkMLB (Some cs) (Some cs),
        (λ labels, indicator_row (length cs)
                     (row_indices (class_to_index cs) labels)) <$> y,
        match unknown (class_to_index cs) y with
        | [] => []
        | u => [UnknownClassesIgnored u]
        end).
Proof.
  intros Hnd. unfold fit_transform, fit. simpl.
  by rewrite bool_decide_eq_true_2.
Qed.

Lemma py_sorted_NoDup (l : list string) : NoDup l → NoDup (py_sorted l).
Proof. unfold py_sorted. by rewrite merge_sort_Permutation. Qed.


End BinarizerFacts.

Section BinarizerClaims.
Import Sklearn.



(** C5: [main] binarizes the train and the validation label sets with
    one binarizer whose classes are the sorted tags.  When the tags are
    distinct both calls succeed, and for every column index [i] the cell
    in column [i] of either matrix says whether the same tag, the [i]-th
    of the sorted tags, is in the row's label set. *)
Theorem C5_columns_aligned_across_splits
    (sorted_tags : list string) (y_train y_val : list (list string)) :
  NoDup sorted_tags →
  ∃ mlb Y_train Y_val,
    main_binarize sorted_tags y_train y_val = Ok (mlb, Y_train, Y_val) ∧
    classes_ mlb = Some (py_sorted sorted_tags) ∧
    ∀ i c, py_sorted sorted_tags !! i = Some c →
      (∀ r labels, y_train !! r = Some labels →
         cell Y_train r i = Some (indicator (c ∈ labels))) ∧
      (∀ r labels, y_val !! r = Some labels →
         cell Y_val r i = Some (indicator (c ∈ labels))).
Proof.
  intros Hnd%py_sorted_NoDup. unfold main_binarize.
  rewrite fit_transform_given_classes by done. simpl.
  rewrite fit_transform_given_classes by done. simpl.
  eexists _, _, _. split; [done|]. split; [done|].
  intros i c Hc. split; intros r labels Hr; by apply indicator_matrix_cell.
Qed.
End BinarizerClaims.



Lemma C5_witness :
  ∃ mlb Y_train Y_val,
    main_binarize ["c"; "a"; "b"] [["a"]; ["b"; "c"]; ["a"; "c"]] [["b"]; []] =
      Ok (mlb, Y_train, Y_val) ∧
    Sklearn.classes_ mlb = Some (Sklearn.py_sorted ["c"; "a"; "b"]) ∧
    ∀ i c, Sklearn.py_sorted ["c"; "a"; "b"] !! i = Some c →
      (∀ r labels, [["a"]; ["b"; "c"]; ["a"; "c"]] !! r = Some labels →
         Sklearn.cell Y_train r i = Some (indicator (c ∈ labels))) ∧
      (∀ r labels, [["b"]; []] !! r = Some labels →
         Sklearn.cell Y_val r i = Some (indicator (c ∈ labels))).
Proof.
  apply (C5_columns_aligned_across_splits
           ["c"; "a"; "b"] [["a"]; ["b"; "c"]; ["a"; "c"]] [["b"]; []]).
  apply (bool_decide_unpack _). vm_compute. exact I.
Defined.

(** The scenario of section 8 of the specification: row 2, the label set
    {a, c}, becomes 1 0 1. *)
Example binarize_scenario :
  (λ r, r.1.2) <$> Sklearn.fit_transform
      (Sklearn.mkMLB (Some (Sklearn.py_sorted ["a"; "b"; "c"])) None)
      [["a"]; ["b"; "c"]; ["a"; "c"]] =
    Ok [[1; 0; 0]; [0; 1; 1]; [1; 0; 1]]%Qc.
Proof. vm_compute. reflexivity. Qed.

(** ** Accuracy *)

Section AccuracyClaims.
Import Sklearn.

Lemma of_nat_0 : of_nat 0 = 0%Qc.
Proof. reflexivity. Qed.

Lemma of_nat_ne_0 (n : nat) : n ≠ 0%nat → of_nat n ≠ 0%Qc.
Proof.
  intros Hn. unfold of_nat. rewrite Q2Qc_eq_iff.
  unfold Qeq. simpl. lia.
Qed.

Lemma filter_seq_shift (P : nat → Prop) `{!∀ n, Decision (P n)} (j n : nat) :
  length (filter P (seq (S j) n)) =
  length (filter (λ r, P (S r)) (seq j n)).
Proof.
  revert j. induction n as [|n IH]; intros j; [done|].
  simpl. rewrite !filter_cons. destruct (decide (P (S j))); simpl; by rewrite IH.
Qed.

(** The rows counted by [accuracy_score] are the exact matches. *)
Lemma count_equal_rows (a b : matrix) :
  length a = length b →
  count (λ p, bool_decide (p.1 = p.2)) (zip a b) = exact_matches a b.
Proof.
  revert b. induction a as [|x a IH]; intros [|y b] Hlen; try done.
  injection Hlen as Hlen. specialize (IH b Hlen).
  unfold exact_matches, count in *.
  change (seq 0 (length (x :: a))) with (0%nat :: seq 1 (length a)).
  rewrite filter_cons.
  change (zip (x :: a) (y :: b)) with ((x, y) :: zip a b).
  cbn [List.filter fst snd].
  destruct (decide ((x :: a) !! 0%nat = (y :: b) !! 0%nat)) as [Heq|Hne].
  - injection Heq as ->. rewrite bool_decide_eq_true_2 by done.
    cbn [length]. f_equal. rewrite IH.
    by rewrite (filter_seq_shift (λ r, (y :: a) !! r = (y :: b) !! r)).
  - rewrite bool_decide_eq_false_2 by (by intros ->).
    rewrite IH.
    by rewrite (filter_seq_shift (λ r, (x :: a) !! r = (y :: b) !! r)).
Qed.

Lemma exact_matches_refl (a : matrix) : exact_matches a a = length a.
Proof.
  unfold exact_matches.
  trans (length (seq 0 (length a))); [|apply length_seq].
  f_equal. induction (seq 0 (length a)) as [|r l IH]; [done|].
  rewrite filter_cons_True by done. by rewrite IH.
Qed.

Lemma exact_matches_none (a b : matrix) :
  (∀ r, (r < length a)%nat → a !! r ≠ b !! r) → exact_matches a b = 0%nat.
Proof.
  intros Hne. unfold exact_matches.
  assert (Forall (λ r, (r < length a)%nat) (seq 0 (length a))) as Hall.
  { apply Forall_forall. intros r Hr%elem_of_seq. lia. }
  induction Hall as [|r l Hr Hall IH]; [done|].
  rewrite filter_cons_False by (by apply Hne). done.
Qed.

(** C6: on indicator matrices of equal shape with at least one row, the
    accuracy is the share of rows at which the predicted row equals the
    true row; it is 1 when the predicted matrix is the true matrix and 0
    when no row matches. *)
Theorem C6_accuracy_is_exact_match_rate (y_true y_pred : matrix) :
  y_true ≠ [] → length <$> y_true = length <$> y_pred →
  accuracy_score y_true y_pred =
    Ok (of_nat (exact_matches y_true y_pred) / of_nat (length y_true))%Qc ∧
  (y_pred = y_true → accuracy_score y_true y_pred = Ok 1%Qc) ∧
  ((∀ r, (r < length y_true)%nat → y_true !! r ≠ y_pred !! r) →
     accuracy_score y_true y_pred = Ok 0%Qc).
Proof.
  intros Hne Hshape.
  assert (length y_true = length y_pred) as Hlen.
  { by rewrite <-(length_fmap length y_true), Hshape, length_fmap. }
  assert (accuracy_score y_true y_pred =
    Ok (of_nat (exact_matches y_true y_pred) / of_nat (length y_true))%Qc)
    as Hacc.
  { unfold accuracy_score, check_consistent_length, check_non_empty.
    rewrite (bool_decide_eq_true_2 (length <$> y_true = length <$> y_pred))
      by done.
    rewrite (bool_decide_eq_false_2 (y_true = [])) by done.
    simpl. by rewrite count_equal_rows. }
  split; [done|]. rewrite Hacc. split.
  - intros ->. rewrite exact_matches_refl. f_equal.
    apply Qcmult_inv_r, of_nat_ne_0. by destruct y_true.
  - intros Hnone. rewrite exact_matches_none by done. f_equal.
    rewrite of_nat_0. apply Qcmult_0_l.
Qed.
End AccuracyClaims.

Lemma C6_witness :
  Sklearn.accuracy_score ex_y_val ex_pred_labels =
    Ok (Sklearn.of_nat (exact_matches ex_y_val ex_pred_labels)
        / Sklearn.of_nat (length ex_y_val))%Qc ∧
  (ex_pred_labels = ex_y_val →
     Sklearn.accuracy_score ex_y_val ex_pred_labels = Ok 1%Qc) ∧
  ((∀ r, (r < length ex_y_val)%nat → ex_y_val !! r ≠ ex_pred_labels !! r) →
     Sklearn.accuracy_score ex_y_val ex_pred_labels = Ok 0%Qc).
Proof.
  apply (C6_accuracy_is_exact_match_rate ex_y_val ex_pred_labels).
  - discriminate.
  - reflexivity.
Defined.

(** Two of the four worked rows match exactly. *)
Example accuracy_example :
  exact_matches ex_y_val ex_pred_labels = 2%nat ∧
  fmt_frac <$> Sklearn.accuracy_score ex_y_val ex_pred_labels = Ok "1/2" ∧
  fmt_frac <$> Sklearn.accuracy_score ex_y_val ex_y_val = Ok "1/1" ∧
  fmt_frac <$> Sklearn.accuracy_score ex_y_val [[0; 0]; [0; 0]; [0; 0]; [1; 1]]%Qc
    = Ok "0/1".
Proof. vm_compute. auto. Qed.

(** ** Training *)

Section TrainingFacts.
Import Sklearn.
Context (liblinear : string → Qc → matrix → list Qc → list Qc * Qc).


Lemma mapM_Raise {A B} (f : A → result B) (l : list A) (P : exn → Prop) :
  (∀ x e, x ∈ l → f x = Raise e → P e) →
  (∃ x e, x ∈ l ∧ f x = Raise e) →
  ∃ e, mapM f l = Raise e ∧ P e.
Proof.
  induction l as [|x l IH]; intros HP (x0 & e0 & Hin & Hx0).
  - by apply elem_of_nil in Hin.
  - cbn. destruct (f x) as [y|e] eqn:Hx.
    + cbn. destruct IH as (e & -> & He).
      * intros x' e' Hin'. apply HP. by apply list_elem_of_further.
      * apply elem_of_cons in Hin as [->|Hin]; [congruence|]. eauto.
      * by exists e.
    + exists e. split; [done|]. eapply HP; [|done]. apply list_elem_of_here.
Qed.

(** Every exception of [LogisticRegression.fit] is a [ValueError]. *)
Lemma LogisticRegression_fit_raises lr X y e :
  LogisticRegression_fit liblinear lr X y = Raise e → is_ValueError e.
Proof.
  unfold LogisticRegression_fit. repeat case_match; by intros [= <-].
Qed.

Lemma _fit_binary_raises lr X y e :
  _fit_binary liblinear lr X y = Raise e → is_ValueError e.
Proof.
  unfold _fit_binary. repeat case_match; try done;
    apply LogisticRegression_fit_raises.
Qed.
End TrainingFacts.

Section TrainingClaims.
Import Sklearn.
Context (liblinear : string → Qc → matrix → list Qc → list Qc * Qc).

Lemma length_column (j : nat) (y : matrix) : length (column j y) = length y.
Proof. unfold column. by rewrite length_fmap. Qed.


Lemma lookup_columns (y : matrix) (j : nat) :
  (j < n_columns y)%nat → columns y !! j = Some (column j y).
Proof.
  intros Hj. unfold columns. rewrite list_lookup_fmap.
  by rewrite lookup_seq_lt.
Qed.


(** A column in which both 0 and 1 occur has at least two distinct
    values. *)
Lemma two_classes (col : list Qc) :
  0%Qc ∈ col → 1%Qc ∈ col → (2 ≤ length (remove_dups col))%nat.
Proof.
  intros H0%elem_of_remove_dups H1%elem_of_remove_dups.
  destruct (remove_dups col) as [|a [|b l]]; simpl; [| |lia].
  - by apply elem_of_nil in H0.
  - apply list_elem_of_singleton in H0, H1. subst a. discriminate.
Qed.





Lemma LogisticRegression_fit_mismatch lr X col :
  length X ≠ length col →
  ∃ e, LogisticRegression_fit liblinear lr X col = Raise e.
Proof.
  intros Hlen. unfold LogisticRegression_fit.
  destruct (negb (bool_decide (penalty lr = "l1" ∨ penalty lr = "l2")));
    [by eexists|].
  destruct (negb (bool_decide (0 < C lr)%Qc)); [by eexists|].
  rewrite (bool_decide_eq_false_2 (length X = length col)) by done.
  by eexists.
Qed.

(** C9 (as amended): when the feature matrix and the label indicator matrix
    differ in their number of rows and some label column holds both
    classes, training fails with a [ValueError]. *)
Theorem C9_row_mismatch_raises_when_a_column_has_both_classes
    (X y : matrix) (penalty : string) (C : Qc) (j : nat) :
  length X ≠ length y → (j < n_columns y)%nat →
  0%Qc ∈ column j y → 1%Qc ∈ column j y →
  ∃ msg, train_classifier liblinear X y penalty C = Raise (ValueError msg).
Proof.
  intros Hlen Hj H0 H1.
  assert (∀ r : result OneVsRestClassifier,
            (∃ e, r = Raise e ∧ is_ValueError e) →
            ∃ msg, r = Raise (ValueError msg)) as Hval.
  { intros r ([msg| | |] & -> & He); try done. by exists msg. }
  apply Hval. unfold train_classifier, OneVsRestClassifier_fit. simpl.
  case_bool_decide; [by eexists|].
  destruct (negb (is_indicator y) || bool_decide (n_columns y = 0%nat));
    [by eexists|].
  pose proof (two_classes _ H0 H1) as Htwo.
  assert (label_binarize y = y) as ->.
  { unfold label_binarize. rewrite bool_decide_eq_false_2; [done|].
    intros [Hone Hconst]. replace j with 0%nat in Htwo by lia. lia. }
  set (lr := mkLR penalty C false "liblinear").
  destruct (mapM_Raise (_fit_binary liblinear lr X) (columns y) is_ValueError)
    as (e & -> & He).
  - intros col e _. apply _fit_binary_raises.
  - exists (column j y).
    destruct (LogisticRegression_fit_mismatch lr X (column j y)) as [e He].
    { by rewrite length_column. }
    exists e. split.
    + eapply list_elem_of_lookup_2. by apply lookup_columns.
    + unfold _fit_binary.
      destruct (remove_dups (column j y)) as [|a [|b l]]; simpl in Htwo;
        [lia|lia|done].
  - by exists e.
Qed.
End TrainingClaims.


(** The classifiers of the worked training run: the first label is on
    every sample and gets a constant predictor, the second gets a fitted
    logistic regression. *)
Example train_classifier_example :
  train_classifier ex_solver ex_X_train [[1; 0]; [1; 1]; [1; 0]]%Qc "l2" (Q2Qc 10) =
    Ok (Sklearn.mkOvR (Sklearn.mkLR "l2" (Q2Qc 10) false "liblinear")
          (Some [ Sklearn.ConstantPredictor 1%Qc;
                  Sklearn.FittedLogisticRegression
                    (Sklearn.mkLR "l2" (Q2Qc 10) false "liblinear")
                    [0; 0]%Qc
                    (ex_solver "l2" (Q2Qc 10) ex_X_train [0; 1; 0]%Qc).2 ])).
Proof. vm_compute. reflexivity. Qed.

(** C9, the claim as stated fails: three feature rows against two label
    rows, every sample carrying the first label only.  Both label columns
    are constant, no estimator looks at the features, and training
    returns a classifier. *)
Lemma C9_counterexample :
  length ex_X_train ≠ length [[1; 0]; [1; 0]]%Qc ∧
  train_classifier ex_solver ex_X_train [[1; 0]; [1; 0]]%Qc "l2" (Q2Qc 10) =
    Ok (Sklearn.mkOvR (Sklearn.mkLR "l2" (Q2Qc 10) false "liblinear")
          (Some [Sklearn.ConstantPredictor 1%Qc; Sklearn.ConstantPredictor 0%Qc])).
Proof. split; [simpl; lia|]. vm_compute. reflexivity. Qed.

Lemma C9_witness :
  ∃ msg,
    train_classifier ex_solver ex_X_train [[1; 0]; [0; 0]]%Qc "l2" (Q2Qc 10) =
      Raise (ValueError msg).
Proof.
  apply (C9_row_mismatch_raises_when_a_column_has_both_classes ex_solver
           ex_X_train [[1; 0]; [0; 0]]%Qc "l2" (Q2Qc 10) 0).
  - simpl. lia.
  - simpl. lia.
  - apply list_elem_of_further, list_elem_of_here.
  - apply list_elem_of_here.
Defined.

(** ** The ROC AUC line *)

Section RocAucClaims.
Import Sklearn.
Context (fmt : Qc → string).

(** What [roc_auc_score] returns when it returns: the unweighted mean of
    the per-label binary ROC AUCs, whatever the [multi_class] option. *)
Lemma roc_auc_score_ok (y_true y_score : matrix) (mc : multi_class) (d : Qc) :
  roc_auc_score y_true y_score mc = Ok d →
  ∃ per_label,
    mapM (λ p, roc_auc_binary p.1 p.2)
         (zip (columns y_true) (columns y_score)) = Ok per_label ∧
    d = mean per_label ∧
    ∀ mc', roc_auc_score y_true y_score mc' = Ok (mean per_label).
Proof.
  unfold roc_auc_score.
  destruct (check_consistent_length y_true y_score) as [[]|e]; [|done].
  destruct (check_non_empty y_true) as [[]|e]; [|done]. cbn.
  destruct (mapM _ _) as [per_label|e]; [|done]. cbn.
  intros [= <-]. by exists per_label.
Qed.

(** What the fourth line of a completed report carries: the value is
    computed from the continuous prediction scores and is the unweighted
    mean over the labels of each label's own binary ROC AUC (the label's
    positive samples ranked against its negative ones).  The one-vs-one
    option passed on line 56 does not reach the computation: every value
    of [multi_class] gives the same number. *)
Lemma roc_auc_line_is_mean_of_per_label_auc
    (f_name : string) (y_val pred_labels pred_scores : matrix) (fs fs' : FS) :
  (∀ v, has_newline (fmt v) = false) →
  write_evaluation_scores fmt accuracy_score f1_score average_precision_score
    roc_auc_score f_name y_val pred_labels pred_scores fs = (Ok tt, fs') →
  ∃ per_label content,
    mapM (λ p, roc_auc_binary p.1 p.2)
         (zip (columns y_val) (columns pred_scores)) = Ok per_label ∧
    files fs' !! ("output/" +:+ f_name) = Some content ∧
    split_lines content !! 3%nat =
      Some ("ROC AUC score: " +:+ fmt (mean per_label)) ∧
    ∀ mc, roc_auc_score y_val pred_scores mc = Ok (mean per_label).
Proof.
  intros Hfmt Hrun.
  apply write_evaluation_scores_ok in Hrun
    as (a & b & c & d & _ & _ & _ & Hd & Hfile).
  apply roc_auc_score_ok in Hd as (per_label & Hper & -> & Hmc).
  exists per_label. eexists. split_and!; try done.
  by rewrite report_split.
Qed.
End RocAucClaims.

(** C7: line 56 asks for the one-vs-one ROC AUC, and the request has no
    effect.  On four samples of three classes, each sample carrying one
    label, the one-vs-one ROC AUC of the scores, averaged over the three
    label pairs, is 5/6; the fourth line of the report carries 8/9, the
    mean of the three per-label ROC AUCs. *)
Theorem C7_one_vs_one_request_is_ignored :
  let r := evaluate "stats.txt" ex3_y_val ex3_pred_labels ex3_pred_scores
             fs_output in
  r.1 = Ok tt ∧
  fmt_frac <$> ovo_roc_auc ex3_y_val ex3_pred_scores = Ok "5/6" ∧
  split_lines <$> files r.2 !! "output/stats.txt" =
    Some [ "Accuracy score: 3/4"; "F1 score: 11/12";
           "Average precision score: 5/6"; "ROC AUC score: 8/9" ] ∧
  match ovo_roc_auc ex3_y_val ex3_pred_scores,
        files r.2 !! "output/stats.txt" with
  | Ok v, Some content =>
      split_lines content !! 3%nat ≠ Some ("ROC AUC score: " +:+ fmt_frac v)
  | _, _ => False
  end.
Proof. vm_compute. split_and!; try reflexivity. intros [=]. Qed.

(** C4, the claim as stated fails: with a score matrix of three rows for
    four validation samples the fourth metric raises, the run does not
    complete, and the report it leaves has three lines. *)
Lemma C4_counterexample :
  let r := evaluate "stats.txt" ex_y_val ex_pred_labels (take 3 ex_pred_scores)
             fs_output in
  is_ok r.1 = false ∧
  match files r.2 !! "output/stats.txt" with
  | Some content =>
      length (split_lines content) = 3%nat ∧
      split_lines content =
        [ "Accuracy score: 1/2"; "F1 score: 11/15";
          "Average precision score: 17/24" ]
  | None => False
  end.
Proof. vm_compute. auto. Qed.

(** The amended C2 on the failing run: the exception of the fourth metric
    ends the run and the file holds the first three lines. *)
Lemma C2_witness :
  let path := "output/" +:+ "stats.txt" in
  let ms := metric_calls Sklearn.accuracy_score Sklearn.f1_score
              Sklearn.average_precision_score Sklearn.roc_auc_score
              ex_y_val_rare ex_pred_labels ex_pred_scores in
  let r := evaluate "stats.txt" ex_y_val_rare ex_pred_labels ex_pred_scores
             fs_output in
  match (open_w path fs_output).1 with
  | Raise e => r = (Raise e, fs_output)
  | Ok _ =>
      r.1 = match first_failure ms with None => Ok tt | Some e => Raise e end ∧
      files r.2 !! path = Some (lines_until_failure fmt_frac ms)
  end.
Proof.
  exact (C2_report_holds_lines_before_first_failure fmt_frac
           Sklearn.accuracy_score Sklearn.f1_score
           Sklearn.average_precision_score Sklearn.roc_auc_score
           "stats.txt" ex_y_val_rare ex_pred_labels ex_pred_scores fs_output).
Defined.



(** * Further properties of [train.py] *)

(** ** [write_evaluation_scores] *)

Section ReporterMore.
Import Sklearn.
Context (fmt : Qc → string).
Context (accuracy_score : matrix → matrix → result Qc).
Context (f1_score : matrix → matrix → average → result Qc).
Context (average_precision_score : matrix → matrix → average → result Qc).
Context (roc_auc_score : matrix → matrix → multi_class → result Qc).

Local Abbreviation wes := (write_evaluation_scores fmt accuracy_score f1_score
                   average_precision_score roc_auc_score).
Local Abbreviation calls := (metric_calls accuracy_score f1_score
                   average_precision_score roc_auc_score).

(** X1: the report file is opened in mode "w", so what it held before the
    run never survives: a run on a file system that already has a file at
    ["output/" + f_name] ends exactly like the run on the file system
    without that content, whether the run completes or a metric raises.
    Only when the file cannot be opened is the old content kept. *)
Theorem write_evaluation_scores_replaces_old_report
    (f_name old : string) (y_val pred_labels pred_scores : matrix) (fs : FS) :
  let path := "output/" +:+ f_name in
  let fs_old := mkFS (dirs fs) (<[path := old]> (files fs)) in
  match (open_w path fs).1 with
  | Ok _ => wes f_name y_val pred_labels pred_scores fs_old =
            wes f_name y_val pred_labels pred_scores fs
  | Raise e => wes f_name y_val pred_labels pred_scores fs_old =
               (Raise e, fs_old)
  end.
Proof.
  intros path fs_old. rewrite !write_evaluation_scores_body. fold path.
  pose proof (open_w_result_dirs path fs fs_old eq_refl) as Hopen.
  destruct (open_w path fs) as [[f|e] fs1], (open_w path fs_old) as [[f'|e'] fs1'];
    simpl in Hopen; try done.
  - simpl. by rewrite insert_insert_eq.
  - by injection Hopen as ->.
Qed.

(** X2: a run completes exactly when the report file can be opened and
    each of the four metric computations returns; no metric is skipped and
    no exception is swallowed. *)
Theorem write_evaluation_scores_completes_iff
    (f_name : string) (y_val pred_labels pred_scores : matrix) (fs : FS) :
  is_ok (wes f_name y_val pred_labels pred_scores fs).1 =
    is_ok (open_w ("output/" +:+ f_name) fs).1
    && is_ok (accuracy_score y_val pred_labels)
    && is_ok (f1_score y_val pred_labels weighted)
    && is_ok (average_precision_score y_val pred_labels macro)
    && is_ok (roc_auc_score y_val pred_scores ovo).
Proof.
  rewrite write_evaluation_scores_body.
  destruct (open_w _ fs) as [[f|e] fs1]; [|done]. unfold metric_calls. simpl.
  destruct (accuracy_score y_val pred_labels); [|done].
  destruct (f1_score y_val pred_labels weighted); [|done].
  destruct (average_precision_score y_val pred_labels macro); [|done].
  by destruct (roc_auc_score y_val pred_scores ovo).
Qed.

End ReporterMore.

(** ** [main] *)

Section MainFacts.
Import Sklearn.
Context (fmt : Qc → string).
Context (liblinear : string → Qc → matrix → list Qc → list Qc * Qc).
Context (unpickle_data : string → result (matrix * list (list string))).
Context (unpickle_tags : string → result (list string)).
Context (pickle_clf : OneVsRestClassifier → string).
Context (pickle_mlb : MultiLabelBinarizer → string).

Local Abbreviation main' := (main fmt liblinear unpickle_data unpickle_tags
                               pickle_clf pickle_mlb).
Local Abbreviation loads := (main_load unpickle_data unpickle_tags).
Local Abbreviation calls := (metric_calls accuracy_score f1_score
                               average_precision_score roc_auc_score).

Lemma dump_spec (s p : string) (fs : FS) :
  dump s p fs =
    match (open_w p fs).1 with
    | Ok _ => (Ok tt, mkFS (dirs fs) (<[p := s]> (files fs)))
    | Raise e => (Raise e, fs)
    end.
Proof.
  unfold dump, with_open_w, mbind, IO_bind, open_w, write.
  repeat case_bool_decide; simpl; try done.
  by rewrite lookup_insert_eq, insert_insert_eq.
Qed.

(** The loads leave the file system as it is. *)
Lemma main_load_unchanged (fs : FS) : (loads fs).2 = fs.
Proof.
  unfold main_load, load, mbind, IO_bind, mret, IO_ret.
  destruct (files fs !! "output/train_tfidf.joblib") as [s1|]; [|done].
  destruct (unpickle_data s1); [|done].
  destruct (files fs !! "output/validation_tfidf.joblib") as [s2|]; [|done].
  destruct (unpickle_data s2); [|done].
  destruct (files fs !! "output/sorted_tags.joblib") as [s3|]; [|done].
  by destruct (unpickle_tags s3).
Qed.

(** What the loads return depends on the three input files only. *)
Lemma main_load_inputs (fs fs' : FS) :
  files fs' !! "output/train_tfidf.joblib" =
    files fs !! "output/train_tfidf.joblib" →
  files fs' !! "output/validation_tfidf.joblib" =
    files fs !! "output/validation_tfidf.joblib" →
  files fs' !! "output/sorted_tags.joblib" =
    files fs !! "output/sorted_tags.joblib" →
  (loads fs').1 = (loads fs).1.
Proof.
  intros H1 H2 H3.
  unfold main_load, load, mbind, IO_bind, mret, IO_ret. rewrite H1.
  destruct (files fs !! "output/train_tfidf.joblib") as [s1|]; [|done].
  destruct (unpickle_data s1); [|done]. rewrite H2.
  destruct (files fs !! "output/validation_tfidf.joblib") as [s2|]; [|done].
  destruct (unpickle_data s2); [|done]. rewrite H3.
  destruct (files fs !! "output/sorted_tags.joblib") as [s3|]; [|done].
  by destruct (unpickle_tags s3).
Qed.

(** [main] in three stages: the loads, the computation without file
    access, the writes. *)
Lemma main_stages (fs : FS) :
  main' fs =
    match (loads fs).1 with
    | Raise e => (Raise e, fs)
    | Ok (train, val, sorted_tags) =>
        match main_fit_predict liblinear train val sorted_tags with
        | Raise e => (Raise e, fs)
        | Ok (mlb, y_val, clf, pred_labels, pred_scores) =>
            main_writes fmt (calls y_val pred_labels pred_scores)
              (pickle_clf clf) (pickle_mlb mlb) fs
        end
    end.
Proof.
  unfold main, main_load, main_fit_predict, load, lift.
  unfold mbind, IO_bind, result_bind, mret, IO_ret.
  destruct (files fs !! "output/train_tfidf.joblib") as [s1|]; [|done].
  destruct (unpickle_data s1) as [[X_train y_train]|]; [|done].
  destruct (files fs !! "output/validation_tfidf.joblib") as [s2|]; [|done].
  destruct (unpickle_data s2) as [[X_val y_val]|]; [|done].
  destruct (files fs !! "output/sorted_tags.joblib") as [s3|]; [|done].
  destruct (unpickle_tags s3) as [tags|]; [|done]. simpl.
  destruct (main_binarize tags y_train y_val) as [[[mlb Y_train] Y_val]|];
    [|done]. simpl.
  destruct (train_classifier liblinear X_train Y_train "l2" (Q2Qc 10))
    as [clf|]; [|done]. simpl.
  destruct (predict clf X_val) as [labels|]; [|done]. simpl.
  destruct (decision_function clf X_val) as [scores|]; [|done]. simpl.
  unfold main_writes.
  rewrite write_evaluation_scores_body.
  change ("output/" +:+ "stats.txt") with "output/stats.txt".
  generalize (calls Y_val labels scores). intros ms.
  destruct (open_w "output/stats.txt" fs) as [[f|e] fs1] eqn:Hopen; [|done].
  simpl.
  destruct (first_failure ms); [done|].
  rewrite dump_spec.
  rewrite (open_w_result_dirs "output/model_tfidf.joblib"
             (mkFS (dirs fs) _) fs eq_refl).
  destruct (open_w "output/model_tfidf.joblib" fs) as [[f2|e2] fs2]; [|done].
  simpl. rewrite dump_spec.
  rewrite (open_w_result_dirs "output/mlb.joblib" (mkFS (dirs fs) _) fs eq_refl).
  by destruct (open_w "output/mlb.joblib" fs) as [[f3|e3] fs3].
Qed.
End MainFacts.

Lemma open_w_raises (p : string) (fs : FS) (e : exn) :
  (open_w p fs).1 = Raise e →
  e = IsADirectoryError p ∨ e = FileNotFoundError p.
Proof.
  unfold open_w. repeat case_bool_decide; simpl; intros [=]; auto.
Qed.

(** The writes of [main] touch the three output paths only. *)
Lemma main_writes_frame fmt ms (model binarizer : string) (fs : FS) (p : string) :
  p ≠ "output/stats.txt" → p ≠ "output/model_tfidf.joblib" →
  p ≠ "output/mlb.joblib" →
  files (main_writes fmt ms model binarizer fs).2 !! p = files fs !! p.
Proof.
  intros H1 H2 H3. unfold main_writes.
  destruct (open_w "output/stats.txt" fs).1; [|done].
  destruct (first_failure ms); simpl; [by rewrite lookup_insert_ne|].
  destruct (open_w "output/model_tfidf.joblib" fs).1; simpl;
    [|by rewrite lookup_insert_ne].
  destruct (open_w "output/mlb.joblib" fs).1; simpl;
    by rewrite ?lookup_insert_ne.
Qed.

Lemma main_writes_dirs fmt ms (model binarizer : string) (fs : FS) :
  dirs (main_writes fmt ms model binarizer fs).2 = dirs fs.
Proof.
  unfold main_writes.
  destruct (open_w "output/stats.txt" fs).1; [|done].
  destruct (first_failure ms); [done|].
  destruct (open_w "output/model_tfidf.joblib" fs).1; [|done].
  by destruct (open_w "output/mlb.joblib" fs).1.
Qed.

(** Writing the same outcome a second time changes nothing. *)
Lemma main_writes_twice fmt ms (model binarizer : string) (fs : FS) :
  main_writes fmt ms model binarizer (main_writes fmt ms model binarizer fs).2
  = main_writes fmt ms model binarizer fs.
Proof.
  pose proof (main_writes_dirs fmt ms model binarizer fs) as Hd.
  unfold main_writes at 1.
  rewrite !(open_w_result_dirs _ _ fs Hd), Hd. clear Hd.
  unfold main_writes.
  destruct (open_w "output/stats.txt" fs).1; [|done].
  destruct (first_failure ms); simpl.
  { by rewrite insert_insert_eq. }
  destruct (open_w "output/model_tfidf.joblib" fs).1; simpl.
  2:{ by rewrite insert_insert_eq. }
  destruct (open_w "output/mlb.joblib" fs).1; simpl; do 2 f_equal;
    apply map_eq; intros k; rewrite !lookup_insert;
    by repeat case_decide.
Qed.

Section MainClaims.
Import Sklearn.
Context (fmt : Qc → string).
Context (liblinear : string → Qc → matrix → list Qc → list Qc * Qc).
Context (unpickle_data : string → result (matrix * list (list string))).
Context (unpickle_tags : string → result (list string)).
Context (pickle_clf : OneVsRestClassifier → string).
Context (pickle_mlb : MultiLabelBinarizer → string).

Local Abbreviation main' := (main fmt liblinear unpickle_data unpickle_tags
                               pickle_clf pickle_mlb).
Local Abbreviation loads := (main_load unpickle_data unpickle_tags).
Local Abbreviation calls := (metric_calls accuracy_score f1_score
                               average_precision_score roc_auc_score).

(** X4: whatever its outcome, [main] creates no directory and changes no
    file other than [output/stats.txt], [output/model_tfidf.joblib] and
    [output/mlb.joblib]; in particular its three input files are left as
    they were. *)
Theorem main_changes_only_its_three_outputs (fs : FS) :
  dirs (main' fs).2 = dirs fs ∧
  ∀ p, p ≠ "output/stats.txt" → p ≠ "output/model_tfidf.joblib" →
       p ≠ "output/mlb.joblib" →
       files (main' fs).2 !! p = files fs !! p.
Proof.
  rewrite main_stages.
  destruct (loads fs).1 as [[[train val] tags]|]; [|done].
  destruct (main_fit_predict _ _ _ _)
    as [[[[[mlb y_val] clf] labels] scores]|]; [|done].
  split; [apply main_writes_dirs|]. intros p. apply main_writes_frame.
Qed.





(** X7: the artifacts are written last.  When [main] ends with a
    [ValueError], raised by the binarizer, by training, by a prediction or
    by a metric, neither [output/model_tfidf.joblib] nor
    [output/mlb.joblib] has been written: a classifier that was trained
    before a metric failed is not saved. *)
Theorem main_value_error_leaves_artifacts_unwritten
    (fs fs' : FS) (msg : string) :
  main' fs = (Raise (ValueError msg), fs') →
  files fs' !! "output/model_tfidf.joblib" =
    files fs !! "output/model_tfidf.joblib" ∧
  files fs' !! "output/mlb.joblib" = files fs !! "output/mlb.joblib".
Proof.
  rewrite main_stages.
  destruct (loads fs).1 as [[[train val] tags]|]; [|by intros [= _ <-]].
  destruct (main_fit_predict _ _ _ _)
    as [[[[[mlb Y_val] clf] labels] scores]|]; [|by intros [= _ <-]].
  unfold main_writes.
  destruct (open_w "output/stats.txt" fs).1; [|by intros [= _ <-]].
  destruct (first_failure _).
  { intros [= _ <-]. simpl. by rewrite !lookup_insert_ne by done. }
  destruct (open_w "output/model_tfidf.joblib" fs).1 eqn:Ho1.
  2:{ intros [= -> _]. by apply open_w_raises in Ho1 as [|]. }
  destruct (open_w "output/mlb.joblib" fs).1 eqn:Ho2; [done|].
  intros [= -> _]. by apply open_w_raises in Ho2 as [|].
Qed.

(** X8: running [main] again on the file system it left changes nothing
    and ends the same way.  The outputs are not among the inputs, and each
    output file is rewritten from scratch. *)
Theorem main_rerun_is_idempotent (fs : FS) :
  main' (main' fs).2 = main' fs.
Proof.
  rewrite (main_stages _ _ _ _ _ _ fs).
  destruct (loads fs).1 as [[[train val] tags]|] eqn:Hl.
  2:{ simpl. by rewrite main_stages, Hl. }
  destruct (main_fit_predict _ _ _ _)
    as [[[[[mlb Y_val] clf] labels] scores]|] eqn:Hc.
  2:{ simpl. by rewrite main_stages, Hl, Hc. }
  rewrite main_stages.
  rewrite (main_load_inputs _ _ fs (main_writes _ _ _ _ fs).2)
    by (by apply main_writes_frame).
  rewrite Hl, Hc. apply main_writes_twice.
Qed.
End MainClaims.

(** ** The binarization step of [main] *)

Section BinarizeMore.
Import Sklearn.

Lemma py_sorted_Permutation (l : list string) : py_sorted l ≡ₚ l.
Proof. apply merge_sort_Permutation. Qed.

Lemma py_sorted_Sorted (l : list string) : Sorted String.le (py_sorted l).
Proof. apply (Sorted_merge_sort String.le). Qed.

(** Sorting forgets the order in which the tags were listed. *)
Lemma py_sorted_perm (l l' : list string) :
  l ≡ₚ l' → py_sorted l = py_sorted l'.
Proof.
  intros Hp. apply (Sorted_unique String.le); try apply py_sorted_Sorted.
  by rewrite !py_sorted_Permutation.
Qed.

Lemma fit_transform_duplicate_classes (cs : list string)
    (old : option (list string)) (y : list (list string)) :
  ¬ NoDup cs →
  fit_transform (mkMLB (Some cs) old) y =
    Raise (ValueError
      "The classes argument contains duplicate classes. Remove these duplicates before passing them to MultiLabelBinarizer.").
Proof.
  intros Hdup. unfold fit_transform, fit. simpl.
  by rewrite bool_decide_eq_false_2.
Qed.

(** X9: [main] does not deduplicate the tags it loads.  When a tag occurs
    twice in the tag list, the binarization of lines 67-69 raises the
    library's [ValueError] about duplicate classes, whatever the label
    sets are, so [main] stops before training. *)
Theorem main_binarize_rejects_duplicate_tags
    (sorted_tags : list string) (y_train y_val : list (list string)) :
  ¬ NoDup sorted_tags →
  ∃ msg, main_binarize sorted_tags y_train y_val = Raise (ValueError msg).
Proof.
  intros Hdup. unfold main_binarize.
  rewrite fit_transform_duplicate_classes; [by eexists|].
  by rewrite py_sorted_Permutation.
Qed.

(** X10: the columns are in ascending tag order, and that order does not
    depend on the order in which the loaded tag list names the tags: two
    tag lists that are permutations of each other give the same binarizer
    and the same two matrices. *)
Theorem main_binarize_ignores_tag_order
    (sorted_tags sorted_tags' : list string)
    (y_train y_val : list (list string)) :
  sorted_tags ≡ₚ sorted_tags' →
  Sorted String.le (py_sorted sorted_tags) ∧
  main_binarize sorted_tags y_train y_val =
    main_binarize sorted_tags' y_train y_val.
Proof.
  intros Hp. split; [apply py_sorted_Sorted|].
  unfold main_binarize. by rewrite (py_sorted_perm _ _ Hp).
Qed.

Lemma main_binarize_ok (sorted_tags : list string)
    (y_train y_val : list (list string)) mlb Y_train Y_val :
  main_binarize sorted_tags y_train y_val = Ok (mlb, Y_train, Y_val) →
  let cs := py_sorted sorted_tags in
  let row := λ labels, indicator_row (length cs)
                         (row_indices (class_to_index cs) labels) in
  NoDup sorted_tags ∧ mlb = mkMLB (Some cs) (Some cs) ∧
  Y_train = row <$> y_train ∧ Y_val = row <$> y_val.
Proof.
  intros Hb cs row.
  destruct (decide (NoDup sorted_tags)) as [Hnd|Hdup].
  - revert Hb. unfold main_binarize.
    rewrite fit_transform_given_classes by (by apply py_sorted_NoDup). simpl.
    rewrite fit_transform_given_classes by (by apply py_sorted_NoDup). simpl.
    by intros [= <- <- <-].
  - revert Hb. unfold main_binarize.
    rewrite fit_transform_duplicate_classes; [done|].
    by rewrite py_sorted_Permutation.
Qed.

Lemma indicator_row_shape (n : nat) (index : gset nat) :
  length (indicator_row n index) = n ∧
  Forall (λ c, c = 0%Qc ∨ c = 1%Qc) (indicator_row n index).
Proof.
  unfold indicator_row. split; [by rewrite length_fmap, length_seq|].
  apply Forall_fmap, Forall_forall. intros j _. simpl.
  case_bool_decide; auto.
Qed.

(** X11: when the binarization of [main] succeeds, both matrices are
    label indicator matrices aligned with their inputs: one row per label
    set, one column per tag, every cell 0 or 1. *)
Theorem main_binarize_shapes
    (sorted_tags : list string) (y_train y_val : list (list string))
    mlb Y_train Y_val :
  main_binarize sorted_tags y_train y_val = Ok (mlb, Y_train, Y_val) →
  length Y_train = length y_train ∧ length Y_val = length y_val ∧
  Forall (λ row, length row = length sorted_tags
                 ∧ Forall (λ c, c = 0%Qc ∨ c = 1%Qc) row)
         (Y_train ++ Y_val).
Proof.
  intros (Hnd & -> & -> & ->)%main_binarize_ok.
  rewrite !length_fmap. split; [done|]. split; [done|].
  rewrite <-fmap_app. apply Forall_fmap, Forall_forall. intros labels _.
  simpl. destruct (indicator_row_shape (length (py_sorted sorted_tags))
    (row_indices (class_to_index (py_sorted sorted_tags)) labels)) as [Hl Hc].
  split; [|done]. rewrite Hl. by rewrite py_sorted_Permutation.
Qed.

Lemma row_indices_same_labels cm (a b : list string) :
  (∀ l, l ∈ a ↔ l ∈ b) → row_indices cm a = row_indices cm b.
Proof.
  intros Hab. unfold row_indices. apply set_eq. intros i.
  rewrite !elem_of_list_to_set, !list_elem_of_omap.
  split; intros (l & Hl & Hi); exists l; split; try done; by apply Hab.
Qed.

Lemma fmap_same_labels {B} (g : list string → B)
    (y y' : list (list string)) :
  (∀ a b, (∀ l, l ∈ a ↔ l ∈ b) → g a = g b) →
  Forall2 (λ a b, ∀ l, l ∈ a ↔ l ∈ b) y y' → g <$> y = g <$> y'.
Proof.
  intros Hg. induction 1 as [|a b y y' Hab _ IH]; [done|].
  rewrite !fmap_cons. by rewrite IH, (Hg a b Hab).
Qed.

(** X12: a label set is read as a set.  Listing the tags of an example in
    another order, or listing one twice, does not change the outcome of
    the binarization of [main]. *)
Theorem main_binarize_reads_label_sets_as_sets
    (sorted_tags : list string) (y_train y_train' y_val y_val'
      : list (list string)) :
  Forall2 (λ a b, ∀ l, l ∈ a ↔ l ∈ b) y_train y_train' →
  Forall2 (λ a b, ∀ l, l ∈ a ↔ l ∈ b) y_val y_val' →
  main_binarize sorted_tags y_train y_val =
    main_binarize sorted_tags y_train' y_val'.
Proof.
  intros Ht Hv.
  destruct (decide (NoDup sorted_tags)) as [Hnd|Hdup].
  2:{ unfold main_binarize.
      by rewrite !fit_transform_duplicate_classes
        by (by rewrite py_sorted_Permutation). }
  apply py_sorted_NoDup in Hnd. unfold main_binarize.
  rewrite !fit_transform_given_classes by done. simpl.
  rewrite !fit_transform_given_classes by done. simpl.
  set (row := λ labels, indicator_row (length (py_sorted sorted_tags))
                (row_indices (class_to_index (py_sorted sorted_tags)) labels)).
  assert (∀ a b, (∀ l, l ∈ a ↔ l ∈ b) → row a = row b) as Hrow.
  { intros a b Hab. unfold row. by rewrite (row_indices_same_labels _ a b). }
  by rewrite (fmap_same_labels row y_train y_train' Hrow Ht),
             (fmap_same_labels row y_val y_val' Hrow Hv).
Qed.
End BinarizeMore.

(** ** More on training *)

Section TrainingMore.
Import Sklearn.
Context (liblinear : string → Qc → matrix → list Qc → list Qc * Qc).





End TrainingMore.

(** ** The further properties on worked inputs *)




(** The files after the worked run of [main]. *)
Example main_example_files :
  let r := ex_main fs_inputs in
  r.1 = Ok tt ∧
  split_lines <$> files r.2 !! "output/stats.txt" =
    Some [ "Accuracy score: 0/1"; "F1 score: 2/3";
           "Average precision score: 1/2"; "ROC AUC score: 1/2" ] ∧
  files r.2 !! "output/model_tfidf.joblib" = Some "classifier" ∧
  files r.2 !! "output/mlb.joblib" = Some "binarizer".
Proof. vm_compute. auto. Qed.

Lemma main_value_error_leaves_artifacts_unwritten_witness :
  files (ex_main fs_inputs_rare).2 !! "output/model_tfidf.joblib" =
    files fs_inputs_rare !! "output/model_tfidf.joblib" ∧
  files (ex_main fs_inputs_rare).2 !! "output/mlb.joblib" =
    files fs_inputs_rare !! "output/mlb.joblib".
Proof.
  apply (main_value_error_leaves_artifacts_unwritten fmt_frac ex_solver
           ex_unpickle_data ex_unpickle_tags ex_pickle_clf ex_pickle_mlb
           fs_inputs_rare (ex_main fs_inputs_rare).2
           "Only one class present in y_true. ROC AUC score is not defined in that case.").
  vm_compute. reflexivity.
Defined.

(** In that run the classifier was trained and three lines of the report
    were written before the fourth metric raised. *)
Example main_example_rare_label :
  let r := ex_main fs_inputs_rare in
  is_ok r.1 = false ∧
  split_lines <$> files r.2 !! "output/stats.txt" =
    Some [ "Accuracy score: 0/1"; "F1 score: 1/1";
           "Average precision score: 1/2" ] ∧
  files r.2 !! "output/model_tfidf.joblib" = None.
Proof. vm_compute. auto. Qed.

Lemma main_binarize_rejects_duplicate_tags_witness :
  ∃ msg,
    main_binarize ["a"; "b"; "a"] [["a"]] [["b"]] = Raise (ValueError msg).
Proof.
  apply (main_binarize_rejects_duplicate_tags ["a"; "b"; "a"] [["a"]] [["b"]]).
  apply (bool_decide_unpack _). vm_compute. exact I.
Defined.

Lemma main_binarize_ignores_tag_order_witness :
  Sorted String.le (Sklearn.py_sorted ["b"; "a"]) ∧
  main_binarize ["b"; "a"] [["a"]] [["b"]] =
    main_binarize ["a"; "b"] [["a"]] [["b"]].
Proof.
  apply (main_binarize_ignores_tag_order ["b"; "a"] ["a"; "b"] [["a"]] [["b"]]).
  apply perm_swap.
Defined.

Lemma main_binarize_shapes_witness :
  length [[1; 0]; [1; 1]]%Qc = length [["a"]; ["b"; "a"]] ∧
  length [[0; 1]]%Qc = length [["b"]] ∧
  Forall (λ row, length row = length ["b"; "a"]
                 ∧ Forall (λ c, c = 0%Qc ∨ c = 1%Qc) row)
         ([[1; 0]; [1; 1]]%Qc ++ [[0; 1]]%Qc).
Proof.
  apply (main_binarize_shapes ["b"; "a"] [["a"]; ["b"; "a"]] [["b"]]
           (Sklearn.mkMLB (Some ["a"; "b"]) (Some ["a"; "b"]))).
  vm_compute. reflexivity.
Defined.

Lemma main_binarize_reads_label_sets_as_sets_witness :
  main_binarize ["b"; "a"] [["a"; "b"]] [["b"]] =
    main_binarize ["b"; "a"] [["b"; "a"; "b"]] [["b"; "b"]].
Proof.
  apply (main_binarize_reads_label_sets_as_sets ["b"; "a"]
           [["a"; "b"]] [["b"; "a"; "b"]] [["b"]] [["b"; "b"]]).
  - apply Forall2_cons_2; [|apply Forall2_nil_2].
    intros l. rewrite !elem_of_cons, !elem_of_nil. tauto.
  - apply Forall2_cons_2; [|apply Forall2_nil_2].
    intros l. rewrite !elem_of_cons, !elem_of_nil. tauto.
Defined.
